(** * payme/views.py: the Payme webhook view

    A shallow embedding of [PaymeWebHookAPIView] (src/payme/views.py): the
    authenticator [check_authorize], the dispatcher [post], the exception
    translator [handle_exceptions] and the six protocol handlers, followed by
    the properties of the specification that concern them.

    Python values are modelled as data, exceptions as a sum type, and the
    two effects of the view (the rows of [TransactionModel.objects] and the
    lines the hooks print) as a state that every handler threads. *)

From Stdlib Require Import ZArith NArith List String Ascii Bool Lia DecimalString.
From Stdlib Require Import Sorted Permutation.
Import ListNotations.

Set Warnings "-register-all".

Local Open Scope string_scope.
Local Open Scope Z_scope.

(** ** Python values *)

(** [decimal.Decimal]: a finite number [coef * 10 ^ exp], an infinity or a
    NaN. *)
Inductive Decimal : Type :=
| Fin (coef exp : Z)
| Inf (negative : bool)
| NaN.

(** What [request.data] and [params] hold after JSON parsing: [None], a
    bool, an int, a str, a list or a dict with str keys (a dict is kept as
    its items, looked up from the front).  JSON numbers with a fraction are
    left out of the model. *)
Inductive value : Type :=
| VNone
| VBool (b : bool)
| VInt (z : Z)
| VStr (s : string)
| VList (items : list value)
| VDict (items : list (string * value)).

(** Exceptions that are not Payme's own. *)
Inductive raw_exn : Type :=
| DoesNotExist
| MultipleObjectsReturned
| KeyError (key : string)
| TypeError
| AttributeError
| ValueError
| IndexError
| InvalidOperation
| BinasciiError
| UnicodeDecodeError.

(** The text of an exception message: the parts of the f-string (or the
    plain literal) it is built from, in order.  [StrExc e] is [str(exc)]
    for an exception that is not Payme's, [StrInternal m] is [str(exc)]
    for an [InternalServiceError] raised with the message [m]. *)
Inductive piece : Type :=
| Lit (s : string)
| Shown (d : Decimal)
| StrExc (e : raw_exn)
| StrInternal (m : list piece).

Definition message : Type := list piece.

(** The classes of [payme.exceptions] the view raises. *)
Inductive payme_exn : Type :=
| PermissionDenied (m : message)
| MethodNotFound (m : message)
| InvalidAccount (m : message)
| AccountDoesNotExist (m : message)
| IncorrectAmount (m : message)
| InternalServiceError (m : message).

Inductive exn : Type :=
| Raw (e : raw_exn)
| Payme (e : payme_exn).

Inductive result (A : Type) : Type :=
| Ok (a : A)
| Raise (e : exn).

Arguments Ok {A} a.
Arguments Raise {A} e.

(** ** Builtins *)

Module Py.

(** [bool(v)] *)
Definition truthy (v : value) : bool :=
  match v with
  | VNone => false
  | VBool b => b
  | VInt z => negb (z =? 0)
  | VStr s => negb (String.eqb s "")
  | VList l => match l with [] => false | _ => true end
  | VDict l => match l with [] => false | _ => true end
  end.

(** Lookup of a key among the items of a dict. *)
Fixpoint dict_find (k : string) (items : list (string * value)) : option value :=
  match items with
  | [] => None
  | (k', v) :: rest => if String.eqb k k' then Some v else dict_find k rest
  end.

(** [v[k]] for a str key [k]. *)
Definition getitem (v : value) (k : string) : result value :=
  match v with
  | VDict items =>
      match dict_find k items with
      | Some x => Ok x
      | None => Raise (Raw (KeyError k))
      end
  | _ => Raise (Raw TypeError)
  end.

(** [v.get(k, default)] *)
Definition get (v : value) (k : string) (default : value) : result value :=
  match v with
  | VDict items =>
      match dict_find k items with
      | Some x => Ok x
      | None => Ok default
      end
  | _ => Raise (Raw AttributeError)
  end.

(** Structural equality of values. *)
Fixpoint value_eqb (a b : value) : bool :=
  match a, b with
  | VNone, VNone => true
  | VBool x, VBool y => Bool.eqb x y
  | VInt x, VInt y => (x =? y)%Z
  | VStr x, VStr y => String.eqb x y
  | VList xs, VList ys =>
      (fix go (xs ys : list value) : bool :=
         match xs, ys with
         | [], [] => true
         | x :: xs', y :: ys' => value_eqb x y && go xs' ys'
         | _, _ => false
         end) xs ys
  | VDict xs, VDict ys =>
      (fix go (xs ys : list (string * value)) : bool :=
         match xs, ys with
         | [], [] => true
         | (k, x) :: xs', (k', y) :: ys' =>
             String.eqb k k' && value_eqb x y && go xs' ys'
         | _, _ => false
         end) xs ys
  | _, _ => false
  end.

(** A str as its code points. *)
Definition str : Type := list N.

Fixpoint codes (s : string) : str :=
  match s with
  | EmptyString => []
  | String c rest => N_of_ascii c :: codes rest
  end.

Definition str_eqb (a b : str) : bool :=
  if list_eq_dec N.eq_dec a b then true else false.

(** [str.isspace] on the code points below 256. *)
Definition isspace (c : N) : bool :=
  ((9 <=? c) && (c <=? 13) || (28 <=? c) && (c <=? 32)
   || (c =? 133) || (c =? 160))%N.

(** [s.split()]: the maximal runs of non-space characters. *)
Fixpoint split_ws_from (cur : list N) (s : str) : list str :=
  match s with
  | [] => match cur with [] => [] | _ => [rev cur] end
  | c :: rest =>
      if isspace c
      then match cur with
           | [] => split_ws_from [] rest
           | _ => rev cur :: split_ws_from [] rest
           end
      else split_ws_from (c :: cur) rest
  end.

Definition split_ws (s : str) : list str := split_ws_from [] s.

(** [s.split(sep)] for a one-character separator. *)
Fixpoint split_on_from (sep : N) (cur : list N) (s : str) : list str :=
  match s with
  | [] => [rev cur]
  | c :: rest =>
      if (c =? sep)%N
      then rev cur :: split_on_from sep [] rest
      else split_on_from sep (c :: cur) rest
  end.

Definition split_on (sep : N) (s : str) : list str := split_on_from sep [] s.

(** [l[-1]], [IndexError] on the empty list. *)
Fixpoint last_item {A : Type} (l : list A) : option A :=
  match l with
  | [] => None
  | [x] => Some x
  | _ :: rest => last_item rest
  end.

End Py.

(** ** Decimal arithmetic *)

Module Dec.

(** The precision of the default context. *)
Definition prec : Z := 28.

(** The number of decimal digits of [n] (one for zero). *)
Definition digits (n : Z) : Z :=
  Z.of_nat (Decimal.nb_digits (N.to_uint (Z.abs_N n))).

(** [n], a natural number, without its last [drop] digits, rounded to the
    nearest and to the even one on a tie (ROUND_HALF_EVEN, the rounding
    of the default context). *)
Definition round_half_even (n drop : Z) : Z :=
  let unit := 10 ^ drop in
  let q := n / unit in
  let r := n mod unit in
  if 2 * r <? unit then q
  else if unit <? 2 * r then q + 1
  else if Z.even q then q else q + 1.

(** [Decimal._fix]: a coefficient of more than [prec] digits is rounded
    to [prec] digits and the exponent raised by the digits dropped (one
    more when the rounding carries into a new digit).  The bounds of the
    context on the exponent (999999) are not modelled. *)
Definition fix_ (c e : Z) : Decimal :=
  if digits c <=? prec then Fin c e
  else
    let drop := digits c - prec in
    let q := round_half_even (Z.abs c) drop in
    if digits q <=? prec then Fin (Z.sgn c * q) (e + drop)
    else Fin (Z.sgn c * (q / 10)) (e + drop + 1).

(** [d * k] for a positive int [k], as the [decimal] module computes it:
    the product of the coefficients, rounded to the context's precision. *)
Definition mul_int (d : Decimal) (k : Z) : Decimal :=
  match d with
  | Fin c e => fix_ (c * k) e
  | Inf s => Inf s
  | NaN => NaN
  end.

(** The product in exact arithmetic: [d] times [k]. *)
Definition times (d : Decimal) (k : Z) : Decimal :=
  match d with
  | Fin c e => Fin (c * k) e
  | Inf s => Inf s
  | NaN => NaN
  end.

(** The product of [d] by [k] fits the precision of the context, so that
    no digit is rounded away. *)
Definition fits (d : Decimal) (k : Z) : bool :=
  match d with
  | Fin c _ => digits (c * k) <=? prec
  | _ => true
  end.

(** [a == b]: numeric equality; a NaN equals nothing. *)
Definition eqb (a b : Decimal) : bool :=
  match a, b with
  | Fin c1 e1, Fin c2 e2 =>
      let m := Z.min e1 e2 in
      (c1 * 10 ^ (e1 - m) =? c2 * 10 ^ (e2 - m))
  | Inf s1, Inf s2 => Bool.eqb s1 s2
  | _, _ => false
  end.

(** [a != b] *)
Definition neb (a b : Decimal) : bool := negb (eqb a b).

Definition is_zero (d : Decimal) : bool :=
  match d with
  | Fin c _ => (c =? 0)
  | _ => false
  end.

End Dec.

(** ** base64 and UTF-8 *)

Module Base64.

(** [table_a2b_base64]: the value of a character of the alphabet. *)
Definition digit (c : N) : option N :=
  (if (65 <=? c) && (c <=? 90) then Some (c - 65)
   else if (97 <=? c) && (c <=? 122) then Some (c - 71)
   else if (48 <=? c) && (c <=? 57) then Some (c + 4)
   else if c =? 43 then Some 62
   else if c =? 47 then Some 63
   else None)%N.

(** [binascii.a2b_base64] in its default (non strict) mode, as CPython
    3.11 and later run it: characters outside the alphabet are skipped,
    a complete pad sequence ends the input, and a quad left open at the
    end is an error ([None], [binascii.Error]). *)
Fixpoint a2b (s : list N) (quad_pos : nat) (leftchar : N) (pads : nat)
         (out : list N) : option (list N) :=
  match s with
  | [] => match quad_pos with O => Some (rev out) | _ => None end
  | c :: rest =>
      if (c =? 61)%N then
        if (2 <=? quad_pos)%nat then
          if (4 <=? quad_pos + S pads)%nat then Some (rev out)
          else a2b rest quad_pos leftchar (S pads) out
        else a2b rest quad_pos leftchar pads out
      else
        match digit c with
        | None => a2b rest quad_pos leftchar pads out
        | Some d =>
            match quad_pos with
            | 0%nat => a2b rest 1%nat d 0%nat out
            | 1%nat =>
                a2b rest 2%nat (N.land d 15) 0%nat
                    (N.lor (N.shiftl leftchar 2) (N.shiftr d 4) :: out)
            | 2%nat =>
                a2b rest 3%nat (N.land d 3) 0%nat
                    (N.lor (N.shiftl leftchar 4) (N.shiftr d 2) :: out)
            | _ =>
                a2b rest 0%nat 0%N 0%nat
                    (N.lor (N.shiftl leftchar 6) d :: out)
            end
        end
  end.

(** [base64.b64decode(s)] for a str [s]: a str with a non-ASCII character
    is refused with a plain [ValueError], before any decoding. *)
Definition b64decode (s : Py.str) : result (list N) :=
  if forallb (fun c => (c <? 128)%N) s
  then match a2b s 0%nat 0%N 0%nat [] with
       | Some bytes => Ok bytes
       | None => Raise (Raw BinasciiError)
       end
  else Raise (Raw ValueError).

Definition cont (b : N) : bool := ((128 <=? b) && (b <=? 191))%N.

Definition low6 (b : N) : N := N.land b 63.

(** [bytes.decode('utf-8')]: [None] stands for [UnicodeDecodeError]
    (a stray or missing continuation byte, an overlong form, a surrogate
    or a code point above U+10FFFF). *)
Fixpoint utf8_decode (bs : list N) : option Py.str :=
  match bs with
  | [] => Some []
  | b0 :: r0 =>
      if (b0 <? 128)%N then option_map (cons b0) (utf8_decode r0)
      else if (b0 <? 192)%N then None
      else if (b0 <? 224)%N then
        match r0 with
        | b1 :: r1 =>
            let cp := N.lor (N.shiftl (N.land b0 31) 6) (low6 b1) in
            if cont b1 && (128 <=? cp)%N
            then option_map (cons cp) (utf8_decode r1)
            else None
        | _ => None
        end
      else if (b0 <? 240)%N then
        match r0 with
        | b1 :: b2 :: r2 =>
            let cp := N.lor (N.shiftl (N.land b0 15) 12)
                            (N.lor (N.shiftl (low6 b1) 6) (low6 b2)) in
            if cont b1 && cont b2 && (2048 <=? cp)%N
               && negb ((55296 <=? cp) && (cp <=? 57343))%N
            then option_map (cons cp) (utf8_decode r2)
            else None
        | _ => None
        end
      else if (b0 <? 248)%N then
        match r0 with
        | b1 :: b2 :: b3 :: r3 =>
            let cp := N.lor (N.shiftl (N.land b0 7) 18)
                            (N.lor (N.shiftl (low6 b1) 12)
                                   (N.lor (N.shiftl (low6 b2) 6) (low6 b3))) in
            if cont b1 && cont b2 && cont b3
               && (65536 <=? cp)%N && (cp <=? 1114111)%N
            then option_map (cons cp) (utf8_decode r3)
            else None
        | _ => None
        end
      else None
  end.

End Base64.

(** ** Settings and the helpers the view imports *)

(** What the view takes from outside its module: the two settings it
    reads, the helpers of [payme.util], and the conversions that the
    [decimal] module and the ORM apply to a request value.  A conversion
    that answers [None] raises an exception that is neither a [KeyError],
    nor [DoesNotExist], nor one of Payme's. *)
Record Env : Type := {
  PAYME_KEY : Py.str;
  PAYME_ACCOUNT_FIELD : string;
  (** the key the ORM looks up for [objects.get(id=v)] *)
  to_pk : value -> option Z;
  (** [Decimal(s)] for a str and [Decimal(l)] for a list *)
  Decimal_of_str : string -> option Decimal;
  Decimal_of_list : list value -> option Decimal;
  (** [payme.util] *)
  time_to_payme : option Z -> Z;
  time_to_service : value -> option Z
}.

(** ** The transaction model *)

Module TransactionModel.

(** Modelled from the spec: the class named by
    [settings.PAYME_TRANSACTION_MODEL] is not part of the sources.  Its
    four states, the state codes of [payme_state] and the transitions of
    [mark_as_performed] and [mark_as_cancelled] follow sections 3 and 4.3
    of the specification; the fields are the attributes the view reads.
    Times are instants of the repository's clock. *)
Inductive Status : Type :=
| CREATED
| PERFORMED
| CANCELLED_AFTER_CREATE
| CANCELLED_AFTER_PERFORM.

Record t : Type := {
  id : Z;
  ext_id : value;
  total_price : Decimal;
  status : Status;
  created_at : Z;
  confirmed_at : option Z;
  canceled_at : option Z;
  data : list (string * value)
}.

(** Modelled from the spec: 1 while awaiting performance, 2 once
    performed, -1 and -2 once cancelled. *)
Definition payme_state (tran : t) : Z :=
  match status tran with
  | CREATED => 1
  | PERFORMED => 2
  | CANCELLED_AFTER_CREATE => -1
  | CANCELLED_AFTER_PERFORM => -2
  end.

Definition is_performed (tran : t) : bool :=
  match status tran with PERFORMED => true | _ => false end.

Definition is_cancelled (tran : t) : bool :=
  match status tran with
  | CANCELLED_AFTER_CREATE | CANCELLED_AFTER_PERFORM => true
  | _ => false
  end.

Definition objects : Type := list t.

(** [tran.save()]: the row of that key takes the attributes of [tran]. *)
Definition save (tran : t) (rows : objects) : objects :=
  map (fun r => if id r =? id tran then tran else r) rows.

Definition with_ext_id (r : t) (e : value) : t :=
  {| id := id r; ext_id := e; total_price := total_price r;
     status := status r; created_at := created_at r;
     confirmed_at := confirmed_at r; canceled_at := canceled_at r;
     data := data r |}.

(** [tran.save(update_fields=["ext_id"])]: only that column is written. *)
Definition save_ext_id (tran : t) (rows : objects) : objects :=
  map (fun r => if id r =? id tran then with_ext_id r (ext_id tran) else r)
      rows.

(** Modelled from the spec: CREATED -> PERFORMED sets [confirmed_at];
    from any other state the operation is refused and answers [False]. *)
Definition mark_as_performed (now : Z) (tran : t) (rows : objects)
  : bool * t * objects :=
  match status tran with
  | CREATED =>
      let tran' :=
        {| id := id tran; ext_id := ext_id tran;
           total_price := total_price tran; status := PERFORMED;
           created_at := created_at tran; confirmed_at := Some now;
           canceled_at := canceled_at tran; data := data tran |} in
      (true, tran', save tran' rows)
  | _ => (false, tran, rows)
  end.

(** Modelled from the spec: cancelling sets [canceled_at], records the
    reason (under "cancel_reason" of [data], where the view reads it
    back) and takes the state whose code is [payme_state]. *)
Definition mark_as_cancelled (now : Z) (cancel_reason : value)
           (payme_state : Z) (tran : t) (rows : objects) : t * objects :=
  let tran' :=
    {| id := id tran; ext_id := ext_id tran;
       total_price := total_price tran;
       status := if payme_state =? -2 then CANCELLED_AFTER_PERFORM
                 else CANCELLED_AFTER_CREATE;
       created_at := created_at tran; confirmed_at := confirmed_at tran;
       canceled_at := Some now;
       data := ("cancel_reason", cancel_reason) :: data tran |} in
  (tran', save tran' rows).

(** [objects.get(...)]: the one row that satisfies the lookup. *)
Definition get (lookup : t -> bool) (rows : objects) : result t :=
  match filter lookup rows with
  | [] => Raise (Raw DoesNotExist)
  | [tran] => Ok tran
  | _ => Raise (Raw MultipleObjectsReturned)
  end.

(** [objects.get(id=v)] *)
Definition get_by_id (env : Env) (v : value) (rows : objects) : result t :=
  match to_pk env v with
  | Some k => get (fun r => id r =? k) rows
  | None => Raise (Raw ValueError)
  end.

(** [objects.get(ext_id=v)] *)
Definition get_by_ext_id (v : value) (rows : objects) : result t :=
  get (fun r => Py.value_eqb (ext_id r) v) rows.

(** [created_at__range=[a, b]]: both bounds included. *)
Definition in_range (a b : Z) (r : t) : bool :=
  (a <=? created_at r) && (created_at r <=? b).

(** [order_by('-created_at')]: latest first. *)
Fixpoint insert_desc (x : t) (l : list t) : list t :=
  match l with
  | [] => [x]
  | y :: rest =>
      if created_at y <=? created_at x then x :: y :: rest
      else y :: insert_desc x rest
  end.

Definition order_by_created_at_desc (l : list t) : list t :=
  fold_right insert_desc [] l.

End TransactionModel.

Module T := TransactionModel.

(** ** Responses *)

(** One entry of the list [get_statement] builds. *)
Record statement_item : Type := {
  item_transaction : value;
  item_amount : Decimal;
  item_account : string * string;
  item_reason : value;
  item_state : Z;
  item_create_time : Z;
  item_perform_time : Z;
  item_cancel_time : Z
}.

(** The classes of [payme.types.response], kept as their fields. *)
Inductive response : Type :=
| CheckPerformTransaction (allow : bool)
| CreateTransaction (transaction : value) (state create_time : Z)
| PerformTransaction (transaction : value) (state perform_time : Z)
| CancelTransaction (transaction : value) (state cancel_time : Z)
| CheckTransaction (transaction : value) (state : Z) (reason : value)
                   (create_time perform_time cancel_time : Z)
| GetStatement (transactions : list statement_item).

(** ** State and the monad of the handlers *)

(** A call of one of the three hooks; each prints its arguments. *)
Inductive hook_call : Type :=
| handle_created_payment (params : value) (res : response)
| handle_successfully_payment (params : value) (res : response)
| handle_cancelled_payment (params : value) (res : response).

Record State : Type := {
  rows : T.objects;
  hooks : list hook_call
}.

(** A computation that reads and writes the state and may raise; what it
    wrote before raising stays written. *)
Definition M (A : Type) : Type := State -> result A * State.

Definition ret {A : Type} (a : A) : M A := fun st => (Ok a, st).

Definition raise {A : Type} (e : exn) : M A := fun st => (Raise e, st).

Definition bind {A B : Type} (m : M A) (k : A -> M B) : M B :=
  fun st =>
    match m st with
    | (Ok a, st') => k a st'
    | (Raise e, st') => (Raise e, st')
    end.

Definition lift {A : Type} (r : result A) : M A := fun st => (r, st).

Definition query {A : Type} (q : T.objects -> result A) : M A :=
  fun st => (q (rows st), st).

Definition call_hook (h : hook_call) : M unit :=
  fun st => (Ok tt, {| rows := rows st; hooks := hooks st ++ [h] |}).

Declare Scope monad_scope.
Delimit Scope monad_scope with monad.
Notation "x <- m ;; k" := (bind m (fun x => k))
  (at level 61, m at next level, right associativity) : monad_scope.
Notation "m ;;; k" := (bind m (fun _ => k))
  (at level 61, right associativity) : monad_scope.
Local Open Scope monad_scope.

(** ** The view *)

(** A request whose body the framework has parsed: [request_data] is
    the value [request.data] yields.  A body that the parser refuses makes
    the first read of [request.data] raise the framework's own exception
    ([ParseError], [UnsupportedMediaType]); such requests are outside this
    type, and no statement below is about them. *)
Record Request : Type := {
  HTTP_AUTHORIZATION : option string;   (* request.META.get('HTTP_AUTHORIZATION') *)
  request_data : value                  (* request.data *)
}.

(** [Decimal(v)] *)
Definition to_Decimal (env : Env) (v : value) : result Decimal :=
  match v with
  | VInt z => Ok (Fin z 0)
  | VBool b => Ok (Fin (if b then 1 else 0) 0)
  | VStr s =>
      match Decimal_of_str env s with
      | Some d => Ok d
      | None => Raise (Raw InvalidOperation)
      end
  | VList l =>
      match Decimal_of_list env l with
      | Some d => Ok d
      | None => Raise (Raw ValueError)
      end
  | VNone | VDict _ => Raise (Raw TypeError)
  end.

(** The decorator [handle_exceptions], clause by clause (what it logs is
    not modelled).  Modelled from the spec: [exceptions.exception_whitelist]
    is not part of the sources; by sections 4.2 and 7 the domain exceptions
    ([PermissionDenied], [MethodNotFound], [InvalidAccount],
    [AccountDoesNotExist], [IncorrectAmount]) pass through unchanged, while
    [InternalServiceError], the class of the unexpected failures, is not
    listed: one raised inside a handler falls to the last clause and is
    raised anew with [str(exc)] as its message. *)
Definition handle_exceptions {A : Type} (func : M A) : M A :=
  fun st =>
    match func st with
    | (Ok a, st') => (Ok a, st')
    | (Raise (Raw DoesNotExist), st') =>
        (Raise (Payme (AccountDoesNotExist [StrExc DoesNotExist])), st')
    | (Raise (Payme (InternalServiceError m)), st') =>
        (Raise (Payme (InternalServiceError [StrInternal m])), st')
    | (Raise (Payme e), st') => (Raise (Payme e), st')
    | (Raise (Raw (KeyError k)), st') =>
        (Raise (Payme (InternalServiceError [Lit "Invalid parameters received."])),
         st')
    | (Raise (Raw e), st') =>
        (Raise (Payme (InternalServiceError [StrExc e])), st')
    end.

(** [check_authorize] *)
Definition check_authorize (env : Env) (request : Request) : result unit :=
  match HTTP_AUTHORIZATION request with
  | None | Some EmptyString =>
      Raise (Payme (PermissionDenied [Lit "Missing authentication credentials"]))
  | Some password =>
      match Py.last_item (Py.split_ws (Py.codes password)) with
      | None => Raise (Raw IndexError)
      | Some token =>
          match Base64.b64decode token with
          | Raise (Raw BinasciiError) =>
              Raise (Payme (PermissionDenied
                              [Lit "Decoding error in authentication credentials"]))
          | Raise e => Raise e
          | Ok bytes =>
              match Base64.utf8_decode bytes with
              | None =>
                  Raise (Payme (PermissionDenied
                                  [Lit "Decoding error in authentication credentials"]))
              | Some decoded =>
                  match Py.last_item (Py.split_on 58 decoded) with
                  | None =>
                      Raise (Payme (PermissionDenied
                        [Lit "Invalid merchant key format in authentication credentials"]))
                  | Some payme_key =>
                      if negb (Py.str_eqb payme_key (PAYME_KEY env))
                      then Raise (Payme (PermissionDenied
                                           [Lit "Invalid merchant key specified"]))
                      else Ok tt
                  end
              end
          end
      end
  end.

Definition incorrect_amount (expected_amount received_amount : Decimal) : exn :=
  Payme (IncorrectAmount [Lit "Invalid amount. Expected: "; Shown expected_amount;
                          Lit ", received: "; Shown received_amount]).

Definition missing_account_field : exn :=
  Payme (InvalidAccount [Lit "Missing account field in parameters."]).

(** [check_perform_transaction] *)
Definition check_perform_transaction (env : Env) (params : value) : M response :=
  handle_exceptions (
    let account_field := PAYME_ACCOUNT_FIELD env in
    account <- lift (Py.getitem params "account") ;;
    transaction_id <- lift (Py.get account account_field VNone) ;;
    if negb (Py.truthy transaction_id) then raise missing_account_field
    else
      tran <- query (T.get_by_id env transaction_id) ;;
      amount <- lift (Py.get params "amount" (VInt 0)) ;;
      received_amount <- lift (to_Decimal env amount) ;;
      let expected_amount := Dec.mul_int (T.total_price tran) 100 in
      if Dec.neb received_amount expected_amount
      then raise (incorrect_amount expected_amount received_amount)
      else ret (CheckPerformTransaction true)).

(** [create_transaction] *)
Definition create_transaction (env : Env) (params : value) : M response :=
  handle_exceptions (
    payme_tr_id <- lift (Py.getitem params "id") ;;
    let account_field := PAYME_ACCOUNT_FIELD env in
    account <- lift (Py.getitem params "account") ;;
    transaction_id <- lift (Py.get account account_field VNone) ;;
    if negb (Py.truthy transaction_id) then raise missing_account_field
    else
      tran <- query (T.get_by_id env transaction_id) ;;
      amount <- lift (Py.get params "amount" (VInt 0)) ;;
      received_amount <- lift (to_Decimal env amount) ;;
      let expected_amount := Dec.mul_int (T.total_price tran) 100 in
      if Dec.neb received_amount expected_amount
      then raise (incorrect_amount expected_amount received_amount)
      else
        tran <- (if negb (Py.truthy (T.ext_id tran))
                 then (let tran' := T.with_ext_id tran payme_tr_id in
                       fun st => (Ok tran',
                                  {| rows := T.save_ext_id tran' (rows st);
                                     hooks := hooks st |}))
                 else ret tran) ;;
        let result := CreateTransaction (T.ext_id tran) (T.payme_state tran)
                        (time_to_payme env (Some (T.created_at tran))) in
        call_hook (handle_created_payment params result) ;;;
        ret result).

(** [perform_transaction]; [now] is the clock the model reads. *)
Definition perform_transaction (env : Env) (now : Z) (params : value) : M response :=
  handle_exceptions (
    payme_tr_id <- lift (Py.getitem params "id") ;;
    tran <- query (T.get_by_ext_id payme_tr_id) ;;
    if T.is_performed tran
    then ret (PerformTransaction (T.ext_id tran) (T.payme_state tran)
                (time_to_payme env (T.confirmed_at tran)))
    else
      tran <- (fun st =>
                 let '(success, tran', rows') :=
                   T.mark_as_performed now tran (rows st) in
                 (if negb success
                  then Raise (Payme (InternalServiceError
                                       [Lit "Cannot perform transaction"]))
                  else Ok tran',
                  {| rows := rows'; hooks := hooks st |})) ;;
      let result := PerformTransaction (T.ext_id tran) (T.payme_state tran)
                      (time_to_payme env (T.confirmed_at tran)) in
      call_hook (handle_successfully_payment params result) ;;;
      ret result).

(** The reason the view reads back from [tran.data]. *)
Definition stored_reason (tran : T.t) : value :=
  match T.data tran with
  | [] => VNone
  | items =>
      match Py.dict_find "cancel_reason" items with
      | Some reason => reason
      | None => VNone
      end
  end.

(** [check_transaction] *)
Definition check_transaction (env : Env) (params : value) : M response :=
  handle_exceptions (
    payme_tr_id <- lift (Py.getitem params "id") ;;
    tran <- query (T.get_by_ext_id payme_tr_id) ;;
    let reason := stored_reason tran in
    ret (CheckTransaction (T.ext_id tran) (T.payme_state tran) reason
           (time_to_payme env (Some (T.created_at tran)))
           (time_to_payme env (T.confirmed_at tran))
           (time_to_payme env (T.canceled_at tran)))).

(** [_cancel_response] *)
Definition _cancel_response (env : Env) (transaction : T.t) : response :=
  CancelTransaction (T.ext_id transaction) (T.payme_state transaction)
    (time_to_payme env (T.canceled_at transaction)).

(** [cancel_transaction]; [now] is the clock the model reads. *)
Definition cancel_transaction (env : Env) (now : Z) (params : value) : M response :=
  handle_exceptions (
    payme_tr_id <- lift (Py.getitem params "id") ;;
    cancel_reason <- lift (Py.getitem params "reason") ;;
    tran <- query (T.get_by_ext_id payme_tr_id) ;;
    if T.is_cancelled tran then ret (_cancel_response env tran)
    else
      let payme_state := if T.is_performed tran then -2 else -1 in
      tran <- (fun st =>
                 let '(tran', rows') :=
                   T.mark_as_cancelled now cancel_reason payme_state tran (rows st) in
                 (Ok tran', {| rows := rows'; hooks := hooks st |})) ;;
      let result := _cancel_response env tran in
      call_hook (handle_cancelled_payment params result) ;;;
      ret result).

(** The dict appended for one transaction of a statement. *)
Definition statement_entry (env : Env) (t : T.t) : statement_item :=
  let str_id := NilZero.string_of_int (Z.to_int (T.id t)) in
  {| item_transaction :=
       if Py.truthy (T.ext_id t) then T.ext_id t else VStr str_id;
     item_amount := Dec.mul_int (T.total_price t) 100;
     item_account := (PAYME_ACCOUNT_FIELD env, str_id);
     item_reason := stored_reason t;
     item_state := T.payme_state t;
     item_create_time := time_to_payme env (Some (T.created_at t));
     item_perform_time := time_to_payme env (T.confirmed_at t);
     item_cancel_time := time_to_payme env (T.canceled_at t) |}.

Definition to_service (env : Env) (v : value) : result Z :=
  match time_to_service env v with
  | Some instant => Ok instant
  | None => Raise (Raw TypeError)
  end.

(** The transactions [get_statement] iterates over. *)
Definition statement_rows (from_time to_time : Z) (rows : T.objects) : list T.t :=
  T.order_by_created_at_desc (filter (T.in_range from_time to_time) rows).

(** [get_statement] *)
Definition get_statement (env : Env) (params : value) : M response :=
  handle_exceptions (
    from <- lift (Py.getitem params "from") ;;
    from_time <- lift (to_service env from) ;;
    to <- lift (Py.getitem params "to") ;;
    to_time <- lift (to_service env to) ;;
    transactions <- query (fun rows => Ok (statement_rows from_time to_time rows)) ;;
    ret (GetStatement (map (statement_entry env) transactions))).

(** The dict [payme_methods] of [post], in the order of the source. *)
Definition payme_methods (env : Env) (now : Z)
  : list (string * (value -> M response)) :=
  [ ("GetStatement", get_statement env);
    ("CancelTransaction", cancel_transaction env now);
    ("PerformTransaction", perform_transaction env now);
    ("CreateTransaction", create_transaction env);
    ("CheckTransaction", check_transaction env);
    ("CheckPerformTransaction", check_perform_transaction env) ].

Fixpoint find_method (name : string) (methods : list (string * (value -> M response)))
  : option (value -> M response) :=
  match methods with
  | [] => None
  | (k, handler) :: rest =>
      if String.eqb name k then Some handler else find_method name rest
  end.

(** [method in payme_methods] and [payme_methods[method]]: a list or a dict
    cannot be hashed; a value that is not a str equals no key. *)
Definition lookup_method (env : Env) (now : Z) (method : value)
  : result (option (value -> M response)) :=
  match method with
  | VStr name => Ok (find_method name (payme_methods env now))
  | VList _ | VDict _ => Raise (Raw TypeError)
  | _ => Ok None
  end.

(** [post] *)
Definition post (env : Env) (now : Z) (request : Request) : M response :=
  _ <- lift (check_authorize env request) ;;
  envelope <- lift
    (match Py.getitem (request_data request) "method" with
     | Ok method =>
         match Py.getitem (request_data request) "params" with
         | Ok params => Ok (method, params)
         | Raise (Raw (KeyError k)) =>
             Raise (Payme (InternalServiceError
                             [Lit "Error processing webhook: "; StrExc (KeyError k)]))
         | Raise e => Raise e
         end
     | Raise (Raw (KeyError k)) =>
         Raise (Payme (InternalServiceError
                         [Lit "Error processing webhook: "; StrExc (KeyError k)]))
     | Raise e => Raise e
     end) ;;
  let '(method, params) := envelope in
  found <- lift (lookup_method env now method) ;;
  match found with
  | Some handler => handler params
  | None => raise (Payme (MethodNotFound [Lit "Method not supported yet!"]))
  end.

(** ** A configuration to run the view on *)

Module Util.

(** Modelled from the spec: [payme.util] is not part of the sources.
    The gateway counts epoch milliseconds; the repository's clock is
    taken to count microseconds, and an unset time is sent as 0
    (section 6). *)
Definition time_to_payme (instant : option Z) : Z :=
  match instant with
  | Some us => Z.quot us 1000
  | None => 0
  end.

Definition time_to_service (milliseconds : value) : option Z :=
  match milliseconds with
  | VInt ms => Some (ms * 1000)
  | _ => None
  end.

End Util.

Module Example.

(** An integer key, given as an int or as its decimal digits. *)
Definition int_pk (v : value) : option Z :=
  match v with
  | VInt z => Some z
  | VStr s => option_map Z.of_int (NilZero.int_of_string s)
  | _ => None
  end.

Definition env : Env :=
  {| PAYME_KEY := Py.codes "secret";
     PAYME_ACCOUNT_FIELD := "order_id";
     to_pk := int_pk;
     Decimal_of_str := fun _ => None;
     Decimal_of_list := fun _ => None;
     time_to_payme := Util.time_to_payme;
     time_to_service := Util.time_to_service |}.

(** The order of the scenarios of section 8: key 5, price 100.00. *)
Definition order5 : T.t :=
  {| T.id := 5; T.ext_id := VNone; T.total_price := Fin 10000 (-2);
     T.status := T.CREATED; T.created_at := 1700000000000000;
     T.confirmed_at := None; T.canceled_at := None; T.data := [] |}.

Definition order6 : T.t :=
  {| T.id := 6; T.ext_id := VStr "ext6"; T.total_price := Fin 0 0;
     T.status := T.PERFORMED; T.created_at := 1700000360000000;
     T.confirmed_at := Some 1700000370000000; T.canceled_at := None;
     T.data := [] |}.

Definition order7 : T.t :=
  {| T.id := 7; T.ext_id := VStr "ext7"; T.total_price := Fin 25 0;
     T.status := T.CREATED; T.created_at := 1700000180000000;
     T.confirmed_at := None; T.canceled_at := None; T.data := [] |}.

Definition st0 : State := {| rows := [order5; order6; order7]; hooks := [] |}.

Definition create_params : value :=
  VDict [("id", VStr "ext1"); ("amount", VInt 10000);
         ("account", VDict [("order_id", VStr "5")])].

(** "Basic " followed by base64("Paycom:secret"). *)
Definition good_header : string := "Basic UGF5Y29tOnNlY3JldA==".

End Example.

(** ** Vocabulary of the statements *)

(** The account of [params] names the stored transaction [tran]: the
    account object holds a true value under the configured field and the
    repository finds exactly [tran] under it. *)
Definition resolves (env : Env) (params : value) (rows : T.objects) (tran : T.t)
  : Prop :=
  exists account transaction_id,
    Py.getitem params "account" = Ok account /\
    Py.get account (PAYME_ACCOUNT_FIELD env) VNone = Ok transaction_id /\
    Py.truthy transaction_id = true /\
    T.get_by_id env transaction_id rows = Ok tran.

(** The amount received with [params], as the handlers read it. *)
Definition received (env : Env) (params : value) (amount : Decimal) : Prop :=
  exists v, Py.get params "amount" (VInt 0) = Ok v /\ to_Decimal env v = Ok amount.

(** The transaction as [create_transaction] holds it after the step
    [if not tran.ext_id]: the external id is assigned when none is set. *)
Definition linked (tran : T.t) (payme_tr_id : value) : T.t :=
  if Py.truthy (T.ext_id tran) then tran else T.with_ext_id tran payme_tr_id.

Definition created_response (env : Env) (tran : T.t) : response :=
  CreateTransaction (T.ext_id tran) (T.payme_state tran)
    (time_to_payme env (Some (T.created_at tran))).

(** State after [create_transaction] has passed the amount check on
    [tran]: the row is written only when no external id was set. *)
Definition after_create (env : Env) (params : value) (tran : T.t)
           (payme_tr_id : value) (st : State) : State :=
  let tran' := linked tran payme_tr_id in
  {| rows := if Py.truthy (T.ext_id tran) then rows st
             else T.save_ext_id tran' (rows st);
     hooks := hooks st
              ++ [handle_created_payment params (created_response env tran')] |}.

Definition invalid_parameters : exn :=
  Payme (InternalServiceError [Lit "Invalid parameters received."]).

Definition account_does_not_exist : exn :=
  Payme (AccountDoesNotExist [StrExc DoesNotExist]).

(** The six protocol methods of section 2. *)
Definition method_names : list string :=
  [ "CheckPerformTransaction"; "CreateTransaction"; "PerformTransaction";
    "CancelTransaction"; "CheckTransaction"; "GetStatement" ].

Definition method_not_found : exn :=
  Payme (MethodNotFound [Lit "Method not supported yet!"]).

(** The order of a statement. *)
Definition latest_first (a b : T.t) : Prop := T.created_at b <= T.created_at a.

(** The primary key identifies a row. *)
Definition pk_unique (rows : T.objects) : Prop := NoDup (map T.id rows).

Definition performed_response (env : Env) (tran : T.t) : response :=
  PerformTransaction (T.ext_id tran) (T.payme_state tran)
    (time_to_payme env (T.confirmed_at tran)).

(** Two headers that hold only white space (a space; a no-break space,
    which a server does not strip), and a header whose token has a
    character outside ASCII. *)
Definition blank_header : string := " ".

Definition nbsp_header : string := String "160"%char EmptyString.

Definition non_ascii_header : string := "Basic " ++ String "233"%char EmptyString.

(** ** Proof tools *)

Ltac unfold_handler :=
  cbv beta iota zeta delta [check_perform_transaction create_transaction
                  perform_transaction cancel_transaction check_transaction
                  get_statement handle_exceptions bind lift query raise ret
                  call_hook].

Ltac run_with H := rewrite H; cbn beta iota zeta.

Ltac use H := rewrite H; cbn beta iota zeta; cbn [Py.getitem Py.get negb].

(** ** Running the examples *)

Example run_check_authorize :
  check_authorize Example.env
    {| HTTP_AUTHORIZATION := Some Example.good_header; request_data := VNone |}
  = Ok tt.
Proof. vm_compute. reflexivity. Qed.

Example run_b64decode :
  Base64.b64decode (Py.codes "UGF5Y29tOnNlY3JldA==") = Ok (Py.codes "Paycom:secret").
Proof. vm_compute. reflexivity. Qed.

Example run_b64decode_padding :
  Base64.b64decode (Py.codes "UGF5Y29tOnNlY3JldA") = Raise (Raw BinasciiError).
Proof. vm_compute. reflexivity. Qed.

Example run_split_ws :
  Py.split_ws (Py.codes "  Basic   abc ") = [Py.codes "Basic"; Py.codes "abc"].
Proof. vm_compute. reflexivity. Qed.

Example run_wrong_key :
  check_authorize Example.env
    {| HTTP_AUTHORIZATION := Some "Basic UGF5Y29tOnNlY3JldHM=";
       request_data := VNone |}
  = Raise (Payme (PermissionDenied [Lit "Invalid merchant key specified"])).
Proof. vm_compute. reflexivity. Qed.

Example run_cancel_records_reason :
  let cancelled :=
    snd (cancel_transaction Example.env 1700000400000000
           (VDict [("id", VStr "ext6"); ("reason", VInt 3)]) Example.st0) in
  fst (check_transaction Example.env (VDict [("id", VStr "ext6")]) cancelled)
  = Ok (CheckTransaction (VStr "ext6") (-2) (VInt 3)
          1700000360000 1700000370000 1700000400000).
Proof. vm_compute. reflexivity. Qed.

Example run_create_transaction :
  fst (create_transaction Example.env Example.create_params Example.st0)
  = Ok (CreateTransaction (VStr "ext1") 1 1700000000000).
Proof. vm_compute. reflexivity. Qed.

(** ** Amounts *)

(** A transaction whose price has 29 digits, more than the context
    keeps of its product with 100. *)
Definition long_price_order : T.t :=
  {| T.id := 9; T.ext_id := VNone;
     T.total_price := Fin 12345678901234567890123456789 0;
     T.status := T.CREATED; T.created_at := 1700000000000000;
     T.confirmed_at := None; T.canceled_at := None; T.data := [] |}.

Definition st_long : State := {| rows := [long_price_order]; hooks := [] |}.

Definition long_price_params (amount : Z) : value :=
  VDict [("id", VStr "ext9"); ("amount", VInt amount);
         ("account", VDict [("order_id", VStr "9")])].

Example run_product_exact :
  Dec.mul_int (Fin 10000 (-2)) 100 = Fin 1000000 (-2).
Proof. vm_compute. reflexivity. Qed.

Example run_product_28_digits :
  Dec.mul_int (Fin 1234567890123456789012345678 0) 100
  = Fin 1234567890123456789012345678 2.
Proof. vm_compute. reflexivity. Qed.

Example run_product_rounded :
  Dec.mul_int (Fin 12345678901234567890123456789 0) 100
  = Fin 1234567890123456789012345679 3.
Proof. vm_compute. reflexivity. Qed.

Example run_product_tie_to_even :
  Dec.mul_int (Fin 12345678901234567890123456785 0) 100
  = Fin 1234567890123456789012345678 3.
Proof. vm_compute. reflexivity. Qed.

Example run_product_carry :
  Dec.mul_int (Fin 99999999999999999999999999999 0) 100 = Fin 1000000000000000000000000000 4.
Proof. vm_compute. reflexivity. Qed.

Lemma pow10_pos (k : Z) : 0 <= k -> 0 < 10 ^ k.
Proof. intros Hk. apply Z.pow_pos_nonneg; lia. Qed.

(** A product that fits the precision is the exact product. *)
Lemma mul_int_fits (d : Decimal) (k : Z) :
  Dec.fits d k = true -> Dec.mul_int d k = Dec.times d k.
Proof.
  destruct d as [c e | s | ]; try reflexivity.
  unfold Dec.fits, Dec.mul_int, Dec.times, Dec.fix_. intros H. rewrite H.
  reflexivity.
Qed.

Lemma zero_fits (price : Decimal) :
  Dec.is_zero price = true -> Dec.fits price 100 = true.
Proof.
  destruct price as [c e | s | ]; try reflexivity.
  unfold Dec.is_zero, Dec.fits. intros H. apply Z.eqb_eq in H. subst c.
  reflexivity.
Qed.

Lemma zero_neb_price (price : Decimal) :
  Dec.neb (Fin 0 0) (Dec.times price 100) = negb (Dec.is_zero price).
Proof.
  destruct price as [c e | s | ]; try reflexivity.
  unfold Dec.neb, Dec.eqb, Dec.times, Dec.is_zero. f_equal.
  assert (Hp : 0 < 10 ^ (e - Z.min 0 e)) by (apply pow10_pos; lia).
  rewrite Z.mul_0_l.
  destruct (Z.eqb_spec c 0) as [-> | Hc].
  - apply Z.eqb_eq. reflexivity.
  - apply Z.eqb_neq. nia.
Qed.

(** The amount check as the handlers run it, on the product the code
    computes. *)
Lemma mismatch_outcome
  (env : Env) (params : value) (st : State) (tran : T.t) (amount : Decimal) :
  resolves env params (rows st) tran ->
  received env params amount ->
  Dec.neb amount (Dec.mul_int (T.total_price tran) 100) = true ->
  let error := incorrect_amount (Dec.mul_int (T.total_price tran) 100) amount in
  check_perform_transaction env params st = (Raise error, st) /\
  (forall payme_tr_id,
      Py.getitem params "id" = Ok payme_tr_id ->
      create_transaction env params st = (Raise error, st)).
Proof.
  intros (account & tid & Hacc & Hget & Htrue & Hrow) (v & Hv & Hdec) Hne.
  split; [ | intros payme_tr_id Hid ]; unfold_handler.
  - run_with Hacc. run_with Hget. rewrite Htrue. cbn [negb].
    run_with Hrow. run_with Hv. run_with Hdec. rewrite Hne. reflexivity.
  - run_with Hid. run_with Hacc. run_with Hget. rewrite Htrue. cbn [negb].
    run_with Hrow. run_with Hv. run_with Hdec. rewrite Hne. reflexivity.
Qed.

(** C1, as the code has it.  In [check_perform_transaction], and in
    [create_transaction] once it has read its "id", when the account
    resolves to a stored transaction whose price times 100 fits the 28
    digits of the decimal context and the amount received differs from
    that price times 100, [IncorrectAmount] is raised with a message that
    shows the expected and the received value, and the state (rows and
    hook calls) is what it was: the assignment of [ext_id] is not
    reached. *)
Theorem amount_mismatch_raises_IncorrectAmount
  (env : Env) (params : value) (st : State) (tran : T.t) (amount : Decimal) :
  resolves env params (rows st) tran ->
  received env params amount ->
  Dec.fits (T.total_price tran) 100 = true ->
  Dec.neb amount (Dec.times (T.total_price tran) 100) = true ->
  let expected := Dec.times (T.total_price tran) 100 in
  let error :=
    Payme (IncorrectAmount [Lit "Invalid amount. Expected: "; Shown expected;
                            Lit ", received: "; Shown amount]) in
  check_perform_transaction env params st = (Raise error, st) /\
  (forall payme_tr_id,
      Py.getitem params "id" = Ok payme_tr_id ->
      create_transaction env params st = (Raise error, st)).
Proof.
  intros Hres Hrecv Hfits Hne.
  pose proof (mismatch_outcome env params st tran amount Hres Hrecv) as H.
  rewrite (mul_int_fits _ _ Hfits) in H.
  exact (H Hne).
Qed.

(** C1, as stated, at three calls.  A [create_transaction] call without
    "id" whose amount differs from the price times 100 raises
    [InternalServiceError], not [IncorrectAmount]; and for the price of 29
    digits the amount that equals the rounded product, and so differs from
    the price times 100, is allowed, while the amount that equals the
    price times 100 is refused. *)
Lemma amount_claim_counterexample :
  Dec.neb (Fin 9999 0) (Dec.times (T.total_price Example.order5) 100) = true /\
  create_transaction Example.env
    (VDict [("amount", VInt 9999); ("account", VDict [("order_id", VStr "5")])])
    Example.st0
  = (Raise (Payme (InternalServiceError [Lit "Invalid parameters received."])),
     Example.st0) /\
  Dec.neb (Fin 1234567890123456789012345679000 0)
          (Dec.times (T.total_price long_price_order) 100) = true /\
  check_perform_transaction Example.env
    (long_price_params 1234567890123456789012345679000) st_long
  = (Ok (CheckPerformTransaction true), st_long) /\
  Dec.eqb (Fin 1234567890123456789012345678900 0)
          (Dec.times (T.total_price long_price_order) 100) = true /\
  (exists m,
      check_perform_transaction Example.env
        (long_price_params 1234567890123456789012345678900) st_long
      = (Raise (Payme (IncorrectAmount m)), st_long)).
Proof.
  split; [ vm_compute; reflexivity | ].
  split; [ vm_compute; reflexivity | ].
  split; [ vm_compute; reflexivity | ].
  split; [ vm_compute; reflexivity | ].
  split; [ vm_compute; reflexivity | ].
  eexists. vm_compute. reflexivity.
Qed.

(** C10, as the code has it.  A params mapping without "amount" is read
    as the amount 0: when the account resolves to a transaction whose
    price is not zero, and times 100 fits the 28 digits of the decimal
    context, [check_perform_transaction], and [create_transaction] once it
    has read its "id", raise [IncorrectAmount] with expected = price * 100
    and received = 0; and when the price is zero they go on as after a
    matching amount ([check_perform_transaction] allows, and
    [create_transaction] links the transaction and answers). *)
Theorem missing_amount_is_zero
  (env : Env) (items : list (string * value)) (st : State) (tran : T.t) :
  resolves env (VDict items) (rows st) tran ->
  Py.dict_find "amount" items = None ->
  let expected := Dec.times (T.total_price tran) 100 in
  received env (VDict items) (Fin 0 0) /\
  (Dec.is_zero (T.total_price tran) = false ->
   Dec.fits (T.total_price tran) 100 = true ->
   check_perform_transaction env (VDict items) st
   = (Raise (incorrect_amount expected (Fin 0 0)), st) /\
   (forall payme_tr_id,
       Py.getitem (VDict items) "id" = Ok payme_tr_id ->
       create_transaction env (VDict items) st
       = (Raise (incorrect_amount expected (Fin 0 0)), st))) /\
  (Dec.is_zero (T.total_price tran) = true ->
   check_perform_transaction env (VDict items) st
   = (Ok (CheckPerformTransaction true), st) /\
   (forall payme_tr_id,
       Py.getitem (VDict items) "id" = Ok payme_tr_id ->
       create_transaction env (VDict items) st
       = (Ok (created_response env (linked tran payme_tr_id)),
          after_create env (VDict items) tran payme_tr_id st))).
Proof.
  intros Hres Hnone expected.
  assert (Hv : Py.get (VDict items) "amount" (VInt 0) = Ok (VInt 0))
    by (unfold Py.get; rewrite Hnone; reflexivity).
  assert (Hrecv : received env (VDict items) (Fin 0 0))
    by (exists (VInt 0); split; [ exact Hv | reflexivity ]).
  split; [ exact Hrecv | ].
  split.
  - intros Hz Hfits.
    pose proof (mismatch_outcome env (VDict items) st tran (Fin 0 0) Hres Hrecv)
      as H.
    rewrite (mul_int_fits _ _ Hfits) in H. apply H.
    rewrite zero_neb_price, Hz. reflexivity.
  - intros Hz.
    assert (Heq : Dec.neb (Fin 0 0) (Dec.mul_int (T.total_price tran) 100) = false).
    { rewrite (mul_int_fits _ _ (zero_fits _ Hz)), zero_neb_price, Hz.
      reflexivity. }
    destruct Hres as (account & tid & Hacc & Hget & Htrue & Hrow).
    split; [ | intros payme_tr_id Hid ]; unfold_handler.
    + run_with Hacc. run_with Hget. rewrite Htrue. cbn [negb].
      run_with Hrow. run_with Hv. cbn [to_Decimal]. rewrite Heq. reflexivity.
    + run_with Hid. run_with Hacc. run_with Hget. rewrite Htrue. cbn [negb].
      run_with Hrow. run_with Hv. cbn [to_Decimal]. rewrite Heq.
      unfold after_create, created_response, linked.
      destruct (Py.truthy (T.ext_id tran)); cbn; reflexivity.
Qed.

(** C10, as stated, at two calls.  A [create_transaction] call without
    "amount" and without "id", on a transaction whose price is not zero,
    raises [InternalServiceError], not [IncorrectAmount]; and for the
    price of 29 digits the expected value of the error is the rounded
    product, which is not the price times 100. *)
Lemma missing_amount_claim_counterexample :
  Dec.is_zero (T.total_price Example.order5) = false /\
  create_transaction Example.env
    (VDict [("account", VDict [("order_id", VStr "5")])]) Example.st0
  = (Raise (Payme (InternalServiceError [Lit "Invalid parameters received."])),
     Example.st0) /\
  check_perform_transaction Example.env
    (VDict [("account", VDict [("order_id", VStr "9")])]) st_long
  = (Raise (incorrect_amount (Fin 1234567890123456789012345679 3) (Fin 0 0)),
     st_long) /\
  Dec.eqb (Fin 1234567890123456789012345679 3)
          (Dec.times (T.total_price long_price_order) 100) = false.
Proof.
  split; [ reflexivity | ].
  split; [ vm_compute; reflexivity | ].
  split; [ vm_compute; reflexivity | ].
  vm_compute. reflexivity.
Qed.

(** ** Account resolution *)

Lemma get_by_id_missing (env : Env) (v : value) (k : Z) (rows : T.objects) :
  to_pk env v = Some k ->
  (forall r, In r rows -> T.id r <> k) ->
  T.get_by_id env v rows = Raise (Raw DoesNotExist).
Proof.
  intros Hk Hno. unfold T.get_by_id, T.get. rewrite Hk.
  replace (filter (fun r => T.id r =? k) rows) with (@nil T.t); [ reflexivity | ].
  symmetry. induction rows as [ | r l IH ]; [ reflexivity | ].
  cbn [filter]. destruct (Z.eqb_spec (T.id r) k) as [E | _].
  - exfalso. apply (Hno r); [ left; reflexivity | exact E ].
  - apply IH. intros r' Hin. apply Hno. right. exact Hin.
Qed.

(** C6, as the code has it.  With an account object in [params] (and, for
    [create_transaction], an "id"): when the configured field is absent
    from the account object, or holds a false value, [InvalidAccount] is
    raised; when it holds a true value that the repository takes as a key
    and no stored transaction has that key, the repository's
    [DoesNotExist] is translated to [AccountDoesNotExist].  A params
    mapping without the account object makes both handlers raise
    [InternalServiceError] ("Invalid parameters received.").  The state is
    unchanged in every case. *)
Theorem account_resolution (env : Env) (items : list (string * value)) (st : State) :
  let params := VDict items in
  let field := PAYME_ACCOUNT_FIELD env in
  (Py.dict_find "account" items = None ->
   check_perform_transaction env params st = (Raise invalid_parameters, st) /\
   create_transaction env params st = (Raise invalid_parameters, st)) /\
  (forall account_items,
      Py.dict_find "account" items = Some (VDict account_items) ->
      (Py.dict_find field account_items = None ->
       check_perform_transaction env params st = (Raise missing_account_field, st) /\
       (forall payme_tr_id,
           Py.dict_find "id" items = Some payme_tr_id ->
           create_transaction env params st = (Raise missing_account_field, st))) /\
      (forall v,
          Py.dict_find field account_items = Some v ->
          Py.truthy v = false ->
          check_perform_transaction env params st = (Raise missing_account_field, st) /\
          (forall payme_tr_id,
              Py.dict_find "id" items = Some payme_tr_id ->
              create_transaction env params st = (Raise missing_account_field, st))) /\
      (forall v k,
          Py.dict_find field account_items = Some v ->
          Py.truthy v = true ->
          to_pk env v = Some k ->
          (forall r, In r (rows st) -> T.id r <> k) ->
          check_perform_transaction env params st = (Raise account_does_not_exist, st) /\
          (forall payme_tr_id,
              Py.dict_find "id" items = Some payme_tr_id ->
              create_transaction env params st = (Raise account_does_not_exist, st)))).
Proof.
  intros params field. subst params field. split; [ | intros account_items Hacc ].
  - intros Hnone. split; unfold_handler; cbn [Py.getitem].
    + rewrite Hnone. reflexivity.
    + destruct (Py.dict_find "id" items); cbn beta iota; [ rewrite Hnone | ];
        reflexivity.
  - split; [ | split ].
    + intros Habsent. split; [ | intros payme_tr_id Hid ];
        unfold_handler; cbn [Py.getitem Py.get].
      * use Hacc. use Habsent. reflexivity.
      * use Hid. use Hacc. use Habsent. reflexivity.
    + intros v Hv Hfalse. split; [ | intros payme_tr_id Hid ];
        unfold_handler; cbn [Py.getitem Py.get].
      * use Hacc. use Hv. use Hfalse. reflexivity.
      * use Hid. use Hacc. use Hv. use Hfalse. reflexivity.
    + intros v k Hv Htrue Hk Hno.
      pose proof (get_by_id_missing env v k (rows st) Hk Hno) as Hmiss.
      split; [ | intros payme_tr_id Hid ];
        unfold_handler; cbn [Py.getitem Py.get].
      * use Hacc. use Hv. use Htrue. use Hmiss. reflexivity.
      * use Hid. use Hacc. use Hv. use Htrue. use Hmiss. reflexivity.
Qed.

(** ** The dispatcher *)

Lemma find_method_other (env : Env) (now : Z) (name : string) :
  ~ In name method_names -> find_method name (payme_methods env now) = None.
Proof.
  intros Hout. unfold payme_methods, find_method.
  repeat match goal with
         | |- context [String.eqb name ?k] =>
             destruct (String.eqb_spec name k) as [-> | _];
             [ exfalso; apply Hout; unfold method_names; cbn; tauto | ]
         end.
  reflexivity.
Qed.

Lemma post_authorized (env : Env) (now : Z) (request : Request) (st : State)
      (items : list (string * value)) (method params : value) :
  check_authorize env request = Ok tt ->
  request_data request = VDict items ->
  Py.dict_find "method" items = Some method ->
  Py.dict_find "params" items = Some params ->
  post env now request st
  = match lookup_method env now method with
    | Ok (Some handler) => handler params st
    | Ok None => (Raise method_not_found, st)
    | Raise e => (Raise e, st)
    end.
Proof.
  intros Hauth Hdata Hm Hp. unfold post, bind, lift, raise.
  rewrite Hauth, Hdata. cbn [Py.getitem]. rewrite Hm, Hp.
  destruct (lookup_method env now method) as [[handler | ] | e]; reflexivity.
Qed.

(** C7.  For an authorized request whose body is a mapping: when "method"
    or "params" is absent [InternalServiceError] is raised; with both
    present, each of the six method names runs its handler on the params,
    and any other method name (or a method that is [None], a bool or an
    int) raises [MethodNotFound] without running a handler. *)
Theorem dispatch_by_method
  (env : Env) (now : Z) (request : Request) (st : State)
  (items : list (string * value)) :
  check_authorize env request = Ok tt ->
  request_data request = VDict items ->
  (Py.dict_find "method" items = None \/ Py.dict_find "params" items = None ->
   exists m, post env now request st = (Raise (Payme (InternalServiceError m)), st)) /\
  (forall method params,
      Py.dict_find "method" items = Some method ->
      Py.dict_find "params" items = Some params ->
      (method = VStr "CheckPerformTransaction" ->
       post env now request st = check_perform_transaction env params st) /\
      (method = VStr "CreateTransaction" ->
       post env now request st = create_transaction env params st) /\
      (method = VStr "PerformTransaction" ->
       post env now request st = perform_transaction env now params st) /\
      (method = VStr "CancelTransaction" ->
       post env now request st = cancel_transaction env now params st) /\
      (method = VStr "CheckTransaction" ->
       post env now request st = check_transaction env params st) /\
      (method = VStr "GetStatement" ->
       post env now request st = get_statement env params st) /\
      (forall name,
          method = VStr name -> ~ In name method_names ->
          post env now request st = (Raise method_not_found, st)) /\
      (match method with
       | VNone | VBool _ | VInt _ =>
           post env now request st = (Raise method_not_found, st)
       | _ => True
       end)).
Proof.
  intros Hauth Hdata. split.
  - intros Habsent. unfold post, bind, lift. rewrite Hauth, Hdata.
    cbn [Py.getitem].
    destruct (Py.dict_find "method" items) as [method | ] eqn:Hm.
    + destruct Habsent as [Habs | Habs]; [ discriminate Habs | ].
      rewrite Habs. eexists. reflexivity.
    + eexists. reflexivity.
  - intros method params Hm Hp.
    pose proof (post_authorized env now request st items method params
                  Hauth Hdata Hm Hp) as Hpost.
    repeat split; try (intros ->; rewrite Hpost; reflexivity).
    + intros name -> Hout. rewrite Hpost. cbn [lookup_method].
      rewrite (find_method_other env now name Hout). reflexivity.
    + destruct method; try exact I; rewrite Hpost; reflexivity.
Qed.

(** ** Statements *)

Lemma insert_desc_perm (x : T.t) (l : list T.t) :
  Permutation (T.insert_desc x l) (x :: l).
Proof.
  induction l as [ | y rest IH ]; cbn [T.insert_desc].
  - apply Permutation_refl.
  - destruct (T.created_at y <=? T.created_at x).
    + apply Permutation_refl.
    + apply perm_trans with (y :: x :: rest).
      * apply perm_skip. exact IH.
      * apply perm_swap.
Qed.

Lemma order_by_perm (l : list T.t) :
  Permutation (T.order_by_created_at_desc l) l.
Proof.
  induction l as [ | x rest IH ]; cbn.
  - apply perm_nil.
  - apply perm_trans with (x :: T.order_by_created_at_desc rest).
    + apply insert_desc_perm.
    + apply perm_skip. exact IH.
Qed.

Lemma insert_desc_sorted (x : T.t) (l : list T.t) :
  StronglySorted latest_first l -> StronglySorted latest_first (T.insert_desc x l).
Proof.
  induction l as [ | y rest IH ]; intros Hs; cbn [T.insert_desc].
  - constructor; constructor.
  - inversion Hs as [ | ? ? Hrest Hall ]; subst.
    destruct (Z.leb_spec (T.created_at y) (T.created_at x)) as [Hle | Hgt].
    + constructor; [ exact Hs | ].
      constructor; [ exact Hle | ].
      rewrite Forall_forall in Hall |- *.
      intros z Hz. unfold latest_first in *. specialize (Hall z Hz). lia.
    + constructor; [ apply IH; exact Hrest | ].
      rewrite Forall_forall in Hall |- *.
      intros z Hz.
      apply (Permutation_in _ (insert_desc_perm x rest)) in Hz.
      destruct Hz as [<- | Hz].
      * unfold latest_first. lia.
      * apply Hall. exact Hz.
Qed.

Lemma order_by_sorted (l : list T.t) :
  StronglySorted latest_first (T.order_by_created_at_desc l).
Proof.
  induction l as [ | x rest IH ]; cbn.
  - constructor.
  - apply insert_desc_sorted. exact IH.
Qed.

Lemma in_range_spec (a b : Z) (r : T.t) :
  T.in_range a b r = true <-> a <= T.created_at r <= b.
Proof. unfold T.in_range. rewrite andb_true_iff, !Z.leb_le. tauto. Qed.

(** C8.  With a "from" and a "to" that convert to the instants [from_time]
    and [to_time], [get_statement] answers the entries of a list of stored
    transactions that holds exactly those created within
    [[from_time, to_time]] (each as often as it is stored), latest first,
    and leaves the state as it was. *)
Theorem statement_in_range_latest_first
  (env : Env) (params : value) (st : State) (from to : value)
  (from_time to_time : Z) :
  Py.getitem params "from" = Ok from ->
  time_to_service env from = Some from_time ->
  Py.getitem params "to" = Ok to ->
  time_to_service env to = Some to_time ->
  exists transactions,
    get_statement env params st
    = (Ok (GetStatement (map (statement_entry env) transactions)), st) /\
    (forall t, In t transactions ->
               from_time <= T.created_at t <= to_time /\ In t (rows st)) /\
    (forall t, In t (rows st) -> from_time <= T.created_at t <= to_time ->
               In t transactions) /\
    Permutation transactions (filter (T.in_range from_time to_time) (rows st)) /\
    StronglySorted latest_first transactions.
Proof.
  intros Hfrom Hft Hto Htt.
  exists (statement_rows from_time to_time (rows st)).
  assert (Hperm : Permutation (statement_rows from_time to_time (rows st))
                    (filter (T.in_range from_time to_time) (rows st)))
    by apply order_by_perm.
  split; [ | split; [ | split; [ | split ] ] ].
  - unfold_handler. unfold to_service.
    rewrite Hfrom; cbn beta iota. rewrite Hft; cbn beta iota.
    rewrite Hto; cbn beta iota. rewrite Htt. reflexivity.
  - intros t Hin. apply (Permutation_in _ Hperm) in Hin.
    apply filter_In in Hin. destruct Hin as [Hin Hr].
    apply in_range_spec in Hr. split; assumption.
  - intros t Hin Hr. apply (Permutation_in _ (Permutation_sym Hperm)).
    apply filter_In. split; [ exact Hin | apply in_range_spec; exact Hr ].
  - exact Hperm.
  - apply order_by_sorted.
Qed.

(** ** Lookups after a write *)

Lemma pk_unique_eq (rows : T.objects) (a b : T.t) :
  pk_unique rows -> In a rows -> In b rows -> T.id a = T.id b -> a = b.
Proof.
  unfold pk_unique. induction rows as [ | r rest IH ]; intros Hnd Ha Hb Hid.
  - destruct Ha.
  - cbn [map] in Hnd. inversion Hnd as [ | ? ? Hnotin Hnd' ]; subst.
    destruct Ha as [-> | Ha], Hb as [-> | Hb].
    + reflexivity.
    + exfalso. apply Hnotin. rewrite Hid. apply in_map. exact Hb.
    + exfalso. apply Hnotin. rewrite <- Hid. apply in_map. exact Ha.
    + apply IH; assumption.
Qed.

Lemma filter_map_on {A : Type} (p : A -> bool) (f : A -> A) (l : list A) :
  (forall x, In x l -> p (f x) = p x) ->
  filter p (map f l) = map f (filter p l).
Proof.
  induction l as [ | x rest IH ]; intros Hp; [ reflexivity | ].
  cbn [map filter]. rewrite (Hp x (or_introl eq_refl)).
  rewrite IH by (intros y Hy; apply Hp; right; exact Hy).
  destruct (p x); reflexivity.
Qed.

Lemma get_ok_inv (lookup : T.t -> bool) (rows : T.objects) (tran : T.t) :
  T.get lookup rows = Ok tran -> filter lookup rows = [tran].
Proof.
  unfold T.get. destruct (filter lookup rows) as [ | a [ | b rest ] ];
    intros H; inversion H; reflexivity.
Qed.

Lemma get_ok_in (lookup : T.t -> bool) (rows : T.objects) (tran : T.t) :
  T.get lookup rows = Ok tran -> In tran rows /\ lookup tran = true.
Proof.
  intros H. apply get_ok_inv in H.
  apply filter_In. rewrite H. left. reflexivity.
Qed.

(** A row found by a lookup is found again, in its new version, after it
    has been saved with the same key and the same answer to the lookup. *)
Lemma get_after_save (lookup : T.t -> bool) (rows : T.objects) (tran tran' : T.t) :
  pk_unique rows ->
  T.get lookup rows = Ok tran ->
  T.id tran' = T.id tran ->
  lookup tran' = true ->
  T.get lookup (T.save tran' rows) = Ok tran'.
Proof.
  intros Hpk Hget Hid Hl.
  destruct (get_ok_in _ _ _ Hget) as [Hin Hlt].
  apply get_ok_inv in Hget.
  unfold T.get, T.save. rewrite filter_map_on.
  - rewrite Hget. cbn [map]. rewrite Hid, Z.eqb_refl. reflexivity.
  - intros r Hr. destruct (Z.eqb_spec (T.id r) (T.id tran')) as [E | _];
      [ | reflexivity ].
    rewrite Hid in E. rewrite (pk_unique_eq rows r tran Hpk Hr Hin E).
    rewrite Hl, Hlt. reflexivity.
Qed.

Lemma get_by_id_after_save_ext_id
  (env : Env) (v e : value) (rows : T.objects) (tran : T.t) :
  T.get_by_id env v rows = Ok tran ->
  T.get_by_id env v (T.save_ext_id (T.with_ext_id tran e) rows)
  = Ok (T.with_ext_id tran e).
Proof.
  unfold T.get_by_id. destruct (to_pk env v) as [k | ]; [ | discriminate ].
  intros Hget. apply get_ok_inv in Hget.
  unfold T.get, T.save_ext_id. rewrite filter_map_on.
  - rewrite Hget. cbn [map T.with_ext_id T.id T.ext_id].
    rewrite Z.eqb_refl. reflexivity.
  - intros r _. destruct (T.id r =? T.id (T.with_ext_id tran e)); reflexivity.
Qed.

Lemma save_ext_id_twice (tran : T.t) (rows : T.objects) :
  T.save_ext_id tran (T.save_ext_id tran rows) = T.save_ext_id tran rows.
Proof.
  unfold T.save_ext_id. rewrite map_map. apply map_ext. intros r.
  destruct (T.id r =? T.id tran) eqn:E.
  - cbn [T.with_ext_id T.id]. rewrite E. reflexivity.
  - rewrite E. reflexivity.
Qed.

Lemma save_ext_id_created_at (tran : T.t) (rows : T.objects) :
  map T.created_at (T.save_ext_id tran rows) = map T.created_at rows.
Proof.
  unfold T.save_ext_id. rewrite map_map. apply map_ext. intros r.
  destruct (T.id r =? T.id tran); reflexivity.
Qed.

(** ** Linking a transaction *)

Lemma handle_exceptions_ok {A : Type} (func : M A) (st st' : State) (a : A) :
  handle_exceptions func st = (Ok a, st') -> func st = (Ok a, st').
Proof.
  unfold handle_exceptions. destruct (func st) as [[x | e] s].
  - intros H; exact H.
  - destruct e as [[ | | k | | | | | | | ] | [ m | m | m | m | m | m ] ];
      discriminate.
Qed.

Lemma create_transaction_ok
  (env : Env) (params : value) (st : State) (payme_tr_id : value) (tran : T.t)
  (amount : Decimal) :
  Py.getitem params "id" = Ok payme_tr_id ->
  resolves env params (rows st) tran ->
  received env params amount ->
  Dec.neb amount (Dec.mul_int (T.total_price tran) 100) = false ->
  create_transaction env params st
  = (Ok (created_response env (linked tran payme_tr_id)),
     after_create env params tran payme_tr_id st).
Proof.
  intros Hid (account & tid & Hacc & Hget & Htrue & Hrow) (v & Hv & Hdec) Heq.
  unfold_handler.
  run_with Hid. run_with Hacc. run_with Hget. rewrite Htrue. cbn [negb].
  run_with Hrow. run_with Hv. run_with Hdec. rewrite Heq.
  unfold after_create, created_response, linked.
  destruct (Py.truthy (T.ext_id tran)); cbn; reflexivity.
Qed.

Lemma create_transaction_ok_inv
  (env : Env) (params : value) (st st1 : State) (r1 : response) :
  create_transaction env params st = (Ok r1, st1) ->
  exists payme_tr_id tran amount,
    Py.getitem params "id" = Ok payme_tr_id /\
    resolves env params (rows st) tran /\
    received env params amount /\
    Dec.neb amount (Dec.mul_int (T.total_price tran) 100) = false /\
    r1 = created_response env (linked tran payme_tr_id) /\
    st1 = after_create env params tran payme_tr_id st.
Proof.
  intros H. unfold create_transaction in H. apply handle_exceptions_ok in H.
  cbv beta iota zeta delta [bind lift query raise ret call_hook] in H.
  destruct (Py.getitem params "id") as [payme_tr_id | ] eqn:Hid;
    [ | discriminate ].
  destruct (Py.getitem params "account") as [account | ] eqn:Hacc;
    [ | discriminate ].
  destruct (Py.get account (PAYME_ACCOUNT_FIELD env) VNone) as [tid | ] eqn:Hget;
    [ | discriminate ].
  destruct (Py.truthy tid) eqn:Htrue; cbn [negb] in H; [ | discriminate ].
  destruct (T.get_by_id env tid (rows st)) as [tran | ] eqn:Hrow;
    [ | discriminate ].
  destruct (Py.get params "amount" (VInt 0)) as [v | ] eqn:Hv;
    [ | discriminate ].
  destruct (to_Decimal env v) as [amount | ] eqn:Hdec; [ | discriminate ].
  destruct (Dec.neb amount (Dec.mul_int (T.total_price tran) 100)) eqn:Heq;
    [ discriminate | ].
  exists payme_tr_id, tran, amount.
  split; [ first [ reflexivity | assumption ] | ].
  split; [ exists account, tid; repeat split; assumption | ].
  split; [ exists v; split; assumption | ].
  split; [ first [ reflexivity | assumption ] | ].
  unfold after_create, created_response, linked.
  destruct (Py.truthy (T.ext_id tran)); cbn in H; inversion H; split; reflexivity.
Qed.

(** C4.  When a [create_transaction] call has succeeded, the same call
    made again succeeds with the same response and leaves every row as
    the first call left it, so the stored [ext_id] and [created_at] are
    those of the first call.  The first call changes no [created_at], and
    writes no row when the transaction it resolves already has an
    external id. *)
Theorem create_transaction_twice
  (env : Env) (params : value) (st st1 : State) (r1 : response) :
  create_transaction env params st = (Ok r1, st1) ->
  (exists st2,
      create_transaction env params st1 = (Ok r1, st2) /\
      rows st2 = rows st1) /\
  map T.created_at (rows st1) = map T.created_at (rows st) /\
  (forall tran,
      resolves env params (rows st) tran ->
      Py.truthy (T.ext_id tran) = true ->
      rows st1 = rows st).
Proof.
  intros H.
  destruct (create_transaction_ok_inv env params st st1 r1 H)
    as (payme_tr_id & tran & amount & Hid & Hres & Hrecv & Heq & -> & ->).
  assert (Hres1 : resolves env params
                    (rows (after_create env params tran payme_tr_id st))
                    (linked tran payme_tr_id)).
  { destruct Hres as (account & tid & Hacc & Hget & Htrue & Hrow).
    exists account, tid. repeat split; try assumption.
    unfold after_create, linked.
    destruct (Py.truthy (T.ext_id tran)); cbn [rows]; [ exact Hrow | ].
    apply get_by_id_after_save_ext_id. exact Hrow. }
  assert (Heq1 : Dec.neb amount
                   (Dec.mul_int (T.total_price (linked tran payme_tr_id)) 100)
                 = false).
  { unfold linked. destruct (Py.truthy (T.ext_id tran)); exact Heq. }
  split; [ | split ].
  - eexists. split.
    + rewrite (create_transaction_ok env params _ payme_tr_id
                 (linked tran payme_tr_id) amount Hid Hres1 Hrecv Heq1).
      f_equal. f_equal. f_equal.
      unfold linked. destruct (Py.truthy (T.ext_id tran)) eqn:Ht.
      * rewrite Ht. reflexivity.
      * cbn [T.ext_id T.with_ext_id].
        destruct (Py.truthy payme_tr_id); reflexivity.
    + unfold after_create at 1. cbn [rows].
      unfold linked. destruct (Py.truthy (T.ext_id tran)) eqn:Ht.
      * rewrite Ht. reflexivity.
      * cbn [T.ext_id T.with_ext_id].
        destruct (Py.truthy payme_tr_id); [ reflexivity | ].
        unfold after_create, linked. rewrite Ht. cbn [rows].
        apply save_ext_id_twice.
  - unfold after_create. cbn [rows].
    destruct (Py.truthy (T.ext_id tran)); [ reflexivity | ].
    apply save_ext_id_created_at.
  - intros tran0 Hres0 Htrue0.
    assert (tran0 = tran) as ->.
    { destruct Hres as (a & t & Ha & Hg & _ & Hr).
      destruct Hres0 as (a0 & t0 & Ha0 & Hg0 & _ & Hr0).
      congruence. }
    unfold after_create. cbn [rows]. rewrite Htrue0. reflexivity.
Qed.

(** ** Retries of perform and cancel *)

Lemma perform_when_performed
  (env : Env) (now : Z) (params : value) (st : State) (payme_tr_id : value)
  (tran : T.t) :
  Py.getitem params "id" = Ok payme_tr_id ->
  T.get_by_ext_id payme_tr_id (rows st) = Ok tran ->
  T.is_performed tran = true ->
  perform_transaction env now params st = (Ok (performed_response env tran), st).
Proof.
  intros Hid Hget Hp. unfold_handler.
  run_with Hid. run_with Hget. rewrite Hp. reflexivity.
Qed.

(** C2.  A [perform_transaction] call on a transaction that is already
    performed answers its id, state and perform time as stored, and
    changes neither a row nor the list of hook calls; and once a call has
    succeeded, the same call made again (at any later time) answers the
    very same payload and leaves the state as the first call left it, so
    [handle_successfully_payment] is not called again. *)
Theorem perform_retry_is_idempotent
  (env : Env) (params : value) (st : State) :
  (forall now payme_tr_id tran,
      Py.getitem params "id" = Ok payme_tr_id ->
      T.get_by_ext_id payme_tr_id (rows st) = Ok tran ->
      T.is_performed tran = true ->
      perform_transaction env now params st
      = (Ok (PerformTransaction (T.ext_id tran) (T.payme_state tran)
               (time_to_payme env (T.confirmed_at tran))), st)) /\
  (forall now1 r1 st1,
      pk_unique (rows st) ->
      perform_transaction env now1 params st = (Ok r1, st1) ->
      forall now2, perform_transaction env now2 params st1 = (Ok r1, st1)).
Proof.
  split.
  - intros now payme_tr_id tran. apply perform_when_performed.
  - intros now1 r1 st1 Hpk H now2.
    pose proof H as H0.
    unfold perform_transaction in H0. apply handle_exceptions_ok in H0.
    cbv beta iota zeta delta [bind lift query raise ret call_hook] in H0.
    destruct (Py.getitem params "id") as [payme_tr_id | ] eqn:Hid;
      [ | discriminate ].
    destruct (T.get_by_ext_id payme_tr_id (rows st)) as [tran | ] eqn:Hget;
      [ | discriminate ].
    destruct (T.is_performed tran) eqn:Hp.
    + inversion H0; subst.
      apply perform_when_performed with (payme_tr_id := payme_tr_id);
        assumption.
    + unfold T.mark_as_performed in H0.
      destruct (T.status tran) eqn:Hs; cbn in H0; try discriminate.
      inversion H0; subst. clear H0.
      match goal with
      | |- perform_transaction _ _ _ {| rows := T.save ?t _; hooks := _ |} = _ =>
          set (tran' := t)
      end.
      apply (perform_when_performed env now2 params _ payme_tr_id tran').
      * exact Hid.
      * cbn [rows]. unfold T.get_by_ext_id.
        destruct (get_ok_in _ _ _ Hget) as [_ Hl].
        apply get_after_save with (tran := tran);
          [ exact Hpk | exact Hget | reflexivity | exact Hl ].
      * reflexivity.
Qed.

(** C3.  A [cancel_transaction] call on a transaction that is already
    cancelled answers the cancel payload as stored and changes nothing;
    once a call has succeeded the same call made again answers the very
    same payload, leaves the state as it was and does not call
    [handle_cancelled_payment] again; and a first cancellation passes to
    [mark_as_cancelled] the state code -2 when the transaction was
    performed and -1 when it was not, which is the state of the
    response. *)
Theorem cancel_retry_and_state_code
  (env : Env) (params : value) (st : State) :
  (forall now payme_tr_id cancel_reason tran,
      Py.getitem params "id" = Ok payme_tr_id ->
      Py.getitem params "reason" = Ok cancel_reason ->
      T.get_by_ext_id payme_tr_id (rows st) = Ok tran ->
      (T.is_cancelled tran = true ->
       cancel_transaction env now params st
       = (Ok (CancelTransaction (T.ext_id tran) (T.payme_state tran)
                (time_to_payme env (T.canceled_at tran))), st)) /\
      (T.is_cancelled tran = false ->
       let code := if T.is_performed tran then -2 else -1 in
       let result := CancelTransaction (T.ext_id tran) code
                       (time_to_payme env (Some now)) in
       cancel_transaction env now params st
       = (Ok result,
          {| rows := snd (T.mark_as_cancelled now cancel_reason code tran (rows st));
             hooks := hooks st ++ [handle_cancelled_payment params result] |}))) /\
  (forall now1 r1 st1,
      pk_unique (rows st) ->
      cancel_transaction env now1 params st = (Ok r1, st1) ->
      forall now2, cancel_transaction env now2 params st1 = (Ok r1, st1)).
Proof.
  assert (Hdone : forall now s payme_tr_id cancel_reason tran,
             Py.getitem params "id" = Ok payme_tr_id ->
             Py.getitem params "reason" = Ok cancel_reason ->
             T.get_by_ext_id payme_tr_id (rows s) = Ok tran ->
             T.is_cancelled tran = true ->
             cancel_transaction env now params s
             = (Ok (_cancel_response env tran), s)).
  { intros now s payme_tr_id cancel_reason tran Hid Hreason Hget Hc.
    unfold_handler. run_with Hid. run_with Hreason. run_with Hget.
    rewrite Hc. reflexivity. }
  split.
  - intros now payme_tr_id cancel_reason tran Hid Hreason Hget. split.
    + intros Hc. apply (Hdone now st payme_tr_id cancel_reason tran); assumption.
    + intros Hc code result. subst code result. unfold_handler.
      run_with Hid. run_with Hreason. run_with Hget. rewrite Hc.
      unfold T.mark_as_cancelled, _cancel_response, T.payme_state.
      cbn [T.ext_id T.status T.canceled_at snd rows hooks].
      destruct (T.is_performed tran); reflexivity.
  - intros now1 r1 st1 Hpk H now2.
    pose proof H as H0.
    unfold cancel_transaction in H0. apply handle_exceptions_ok in H0.
    cbv beta iota zeta delta [bind lift query raise ret call_hook] in H0.
    destruct (Py.getitem params "id") as [payme_tr_id | ] eqn:Hid;
      [ | discriminate ].
    destruct (Py.getitem params "reason") as [cancel_reason | ] eqn:Hreason;
      [ | discriminate ].
    destruct (T.get_by_ext_id payme_tr_id (rows st)) as [tran | ] eqn:Hget;
      [ | discriminate ].
    destruct (T.is_cancelled tran) eqn:Hc.
    + inversion H0; subst.
      apply (Hdone now2 _ payme_tr_id cancel_reason tran);
        first [ assumption | reflexivity ].
    + unfold T.mark_as_cancelled in H0. cbn in H0.
      inversion H0; subst. clear H0.
      match goal with
      | |- cancel_transaction _ _ _ {| rows := T.save ?t _; hooks := _ |} = _ =>
          set (tran' := t)
      end.
      apply (Hdone now2 _ payme_tr_id cancel_reason tran').
      * reflexivity.
      * reflexivity.
      * cbn [rows]. unfold T.get_by_ext_id.
        destruct (get_ok_in _ _ _ Hget) as [_ Hl].
        apply get_after_save with (tran := tran);
          [ exact Hpk | exact Hget | reflexivity | exact Hl ].
      * unfold tran', T.is_cancelled. cbn [T.status].
        destruct (T.is_performed tran); reflexivity.
Qed.

(** ** Authorization *)

(** Whatever [check_authorize] raises, [post] raises, before it reads the
    body: no handler runs and the state is untouched, whatever the method. *)
Lemma auth_failure_short_circuits
  (env : Env) (now : Z) (request : Request) (st : State) (e : exn) :
  check_authorize env request = Raise e ->
  post env now request st = (Raise e, st).
Proof. intros H. unfold post, bind, lift. rewrite H. reflexivity. Qed.

(** [s.split(':')] is never empty, so the [IndexError] clause that guards
    [password.split(':')[-1]] cannot be entered. *)
Lemma split_on_last (sep : N) (cur : list N) (s : Py.str) :
  Py.last_item (Py.split_on_from sep cur s) <> None.
Proof.
  revert cur. induction s as [ | c rest IH ]; intros cur; cbn [Py.split_on_from].
  - discriminate.
  - destruct (c =? sep)%N; [ | apply IH ].
    specialize (IH []).
    destruct (Py.split_on_from sep [] rest) as [ | x l ]; [ discriminate | ].
    exact IH.
Qed.

(** The outcomes of [check_authorize]: it passes, raises
    [PermissionDenied], or lets an [IndexError] or a [ValueError] out. *)
Lemma check_authorize_outcomes (env : Env) (request : Request) :
  check_authorize env request = Ok tt \/
  (exists m, check_authorize env request = Raise (Payme (PermissionDenied m))) \/
  check_authorize env request = Raise (Raw IndexError) \/
  check_authorize env request = Raise (Raw ValueError).
Proof.
  unfold check_authorize.
  destruct (HTTP_AUTHORIZATION request) as [[ | c password] | ];
    try (right; left; eexists; reflexivity).
  destruct (Py.last_item (Py.split_ws (Py.codes (String c password))))
    as [token | ]; [ | right; right; left; reflexivity ].
  unfold Base64.b64decode.
  destruct (forallb (fun c0 => (c0 <? 128)%N) token);
    [ | right; right; right; reflexivity ].
  destruct (Base64.a2b token 0 0 0 []) as [bytes | ];
    [ | right; left; eexists; reflexivity ].
  destruct (Base64.utf8_decode bytes) as [decoded | ];
    [ | right; left; eexists; reflexivity ].
  destruct (Py.last_item (Py.split_on 58 decoded)) as [payme_key | ];
    [ | right; left; eexists; reflexivity ].
  destruct (Py.str_eqb payme_key (PAYME_KEY env)); cbn [negb].
  - left. reflexivity.
  - right; left; eexists; reflexivity.
Qed.

(** Where the guards of [check_authorize] do hold: a missing or empty
    header, a token that [a2b_base64] rejects, bytes that are not UTF-8
    and a last segment other than the merchant key all raise
    [PermissionDenied]. *)
Lemma denied_paths (env : Env) (body : value) :
  (forall header,
      header = None \/ header = Some EmptyString ->
      exists m,
        check_authorize env {| HTTP_AUTHORIZATION := header; request_data := body |}
        = Raise (Payme (PermissionDenied m))) /\
  (forall c password token,
      Py.last_item (Py.split_ws (Py.codes (String c password))) = Some token ->
      (Base64.b64decode token = Raise (Raw BinasciiError) \/
       (exists bytes,
           Base64.b64decode token = Ok bytes /\
           (Base64.utf8_decode bytes = None \/
            exists decoded payme_key,
              Base64.utf8_decode bytes = Some decoded /\
              Py.last_item (Py.split_on 58 decoded) = Some payme_key /\
              payme_key <> PAYME_KEY env))) ->
      exists m,
        check_authorize env {| HTTP_AUTHORIZATION := Some (String c password);
                               request_data := body |}
        = Raise (Payme (PermissionDenied m))).
Proof.
  split.
  - intros header [-> | ->]; eexists; reflexivity.
  - intros c password token Htoken Hfail.
    unfold check_authorize. cbn [HTTP_AUTHORIZATION]. rewrite Htoken.
    destruct Hfail as [Hb | (bytes & Hb & Hfail)]; rewrite Hb.
    + eexists; reflexivity.
    + destruct Hfail as [Hu | (decoded & payme_key & Hu & Hk & Hne)]; rewrite Hu.
      * eexists; reflexivity.
      * rewrite Hk. unfold Py.str_eqb.
        destruct (list_eq_dec N.eq_dec payme_key (PAYME_KEY env)) as [E | _];
          [ contradiction | ].
        eexists; reflexivity.
Qed.

(** C5, at a request the code mishandles.  The token of
    [non_ascii_header] cannot be base64-decoded; [post] stops before it
    reads the method and runs no handler, but what it raises is the
    [ValueError] of [b64decode], not [PermissionDenied]. *)
Theorem non_ascii_token_escapes_post
  (env : Env) (now : Z) (body : value) (st : State) :
  post env now {| HTTP_AUTHORIZATION := Some non_ascii_header;
                  request_data := body |} st
  = (Raise (Raw ValueError), st).
Proof. apply auth_failure_short_circuits. reflexivity. Qed.

(** A header made of white space only is not empty, so it passes the
    first test; it splits into no token and [password.split()[-1]] raises
    [IndexError]. *)
Lemma split_ws_blank (s : Py.str) :
  forallb Py.isspace s = true -> Py.split_ws_from [] s = [].
Proof.
  induction s as [ | c rest IH ]; [ reflexivity | ].
  cbn [forallb Py.split_ws_from]. intros H.
  apply andb_true_iff in H. destruct H as [Hc Hrest].
  rewrite Hc. apply IH. exact Hrest.
Qed.

Lemma white_space_header_raises_IndexError
  (env : Env) (body : value) (c : ascii) (password : string) :
  forallb Py.isspace (Py.codes (String c password)) = true ->
  check_authorize env {| HTTP_AUTHORIZATION := Some (String c password);
                         request_data := body |}
  = Raise (Raw IndexError).
Proof.
  intros H. unfold check_authorize, Py.split_ws. cbn [HTTP_AUTHORIZATION].
  rewrite (split_ws_blank _ H). reflexivity.
Qed.

(** C9, at headers the code mishandles.  [blank_header] and [nbsp_header]
    yield no token: [password.split()[-1]] raises [IndexError], which no
    clause of [check_authorize] turns into [PermissionDenied]; likewise
    the [ValueError] for the token of [non_ascii_header]. *)
Theorem blank_header_escapes_check_authorize (env : Env) (body : value) :
  check_authorize env {| HTTP_AUTHORIZATION := Some blank_header;
                         request_data := body |}
  = Raise (Raw IndexError) /\
  check_authorize env {| HTTP_AUTHORIZATION := Some nbsp_header;
                         request_data := body |}
  = Raise (Raw IndexError) /\
  check_authorize env {| HTTP_AUTHORIZATION := Some non_ascii_header;
                         request_data := body |}
  = Raise (Raw ValueError).
Proof.
  split; [ | split ].
  - apply white_space_header_raises_IndexError. reflexivity.
  - apply white_space_header_raises_IndexError. reflexivity.
  - reflexivity.
Qed.

(** ** The statements at work on the example configuration *)

Lemma amount_mismatch_witness :
  let params := VDict [("id", VStr "ext1"); ("amount", VInt 9999);
                       ("account", VDict [("order_id", VStr "5")])] in
  let error := incorrect_amount (Fin 1000000 (-2)) (Fin 9999 0) in
  check_perform_transaction Example.env params Example.st0
  = (Raise error, Example.st0) /\
  create_transaction Example.env params Example.st0
  = (Raise error, Example.st0).
Proof.
  intros params error.
  assert (Hres : resolves Example.env params (rows Example.st0) Example.order5).
  { exists (VDict [("order_id", VStr "5")]), (VStr "5").
    repeat split; reflexivity. }
  assert (Hrecv : received Example.env params (Fin 9999 0)).
  { exists (VInt 9999). split; reflexivity. }
  destruct (amount_mismatch_raises_IncorrectAmount
              Example.env params Example.st0 Example.order5 (Fin 9999 0)
              Hres Hrecv eq_refl eq_refl) as [Hcheck Hcreate].
  split; [ exact Hcheck | exact (Hcreate (VStr "ext1") eq_refl) ].
Defined.

Lemma missing_amount_witness :
  let items := [("id", VStr "ext1"); ("account", VDict [("order_id", VStr "5")])] in
  let error := incorrect_amount (Fin 1000000 (-2)) (Fin 0 0) in
  check_perform_transaction Example.env (VDict items) Example.st0
  = (Raise error, Example.st0) /\
  create_transaction Example.env (VDict items) Example.st0
  = (Raise error, Example.st0).
Proof.
  intros items error.
  assert (Hres : resolves Example.env (VDict items) (rows Example.st0)
                   Example.order5).
  { exists (VDict [("order_id", VStr "5")]), (VStr "5").
    repeat split; reflexivity. }
  destruct (missing_amount_is_zero Example.env items Example.st0 Example.order5
              Hres eq_refl) as (_ & Hnonzero & _).
  destruct (Hnonzero eq_refl eq_refl) as [Hcheck Hcreate].
  split; [ exact Hcheck | exact (Hcreate (VStr "ext1") eq_refl) ].
Defined.

Lemma account_resolution_witness :
  let items := [("id", VStr "ext1"); ("amount", VInt 10000);
                ("account", VDict [("order_id", VStr "99")])] in
  check_perform_transaction Example.env (VDict items) Example.st0
  = (Raise account_does_not_exist, Example.st0) /\
  create_transaction Example.env (VDict items) Example.st0
  = (Raise account_does_not_exist, Example.st0).
Proof.
  intros items.
  destruct (account_resolution Example.env items Example.st0) as (_ & Hacc).
  destruct (Hacc [("order_id", VStr "99")] eq_refl) as (_ & _ & Hmiss).
  assert (Hno : forall r, In r (rows Example.st0) -> T.id r <> 99).
  { intros r [<- | [<- | [<- | []]]]; discriminate. }
  destruct (Hmiss (VStr "99") 99 eq_refl eq_refl eq_refl Hno) as [Hcheck Hcreate].
  split; [ exact Hcheck | exact (Hcreate (VStr "ext1") eq_refl) ].
Defined.

(** C6, as stated, at two inputs.  Without the account object the handlers
    raise [InternalServiceError], not [InvalidAccount]; and the empty
    string under the account field, which is the key of no stored
    transaction, raises [InvalidAccount], not [AccountDoesNotExist]. *)
Lemma account_claim_counterexample :
  check_perform_transaction Example.env (VDict [("amount", VInt 10000)]) Example.st0
  = (Raise invalid_parameters, Example.st0) /\
  ~ (exists m,
        fst (check_perform_transaction Example.env
               (VDict [("amount", VInt 10000)]) Example.st0)
        = Raise (Payme (InvalidAccount m))) /\
  create_transaction Example.env
    (VDict [("id", VStr "ext1"); ("amount", VInt 10000)]) Example.st0
  = (Raise invalid_parameters, Example.st0) /\
  check_perform_transaction Example.env
    (VDict [("amount", VInt 10000); ("account", VDict [("order_id", VStr "")])])
    Example.st0
  = (Raise missing_account_field, Example.st0) /\
  ~ (exists m,
        fst (check_perform_transaction Example.env
               (VDict [("amount", VInt 10000);
                       ("account", VDict [("order_id", VStr "")])])
               Example.st0)
        = Raise (Payme (AccountDoesNotExist m))).
Proof.
  split; [ reflexivity | ].
  split; [ intros [m Hm]; discriminate Hm | ].
  split; [ reflexivity | ].
  split; [ reflexivity | ].
  intros [m Hm]; discriminate Hm.
Qed.

Lemma dispatch_witness :
  let request :=
    {| HTTP_AUTHORIZATION := Some Example.good_header;
       request_data := VDict [("method", VStr "CheckTransaction");
                              ("params", VDict [("id", VStr "ext6")])] |} in
  let unknown :=
    {| HTTP_AUTHORIZATION := Some Example.good_header;
       request_data := VDict [("method", VStr "SetFiscalData");
                              ("params", VDict [])] |} in
  post Example.env 0 request Example.st0
  = check_transaction Example.env (VDict [("id", VStr "ext6")]) Example.st0 /\
  post Example.env 0 unknown Example.st0 = (Raise method_not_found, Example.st0).
Proof.
  intros request unknown. split.
  - destruct (dispatch_by_method Example.env 0 request Example.st0
                [("method", VStr "CheckTransaction");
                 ("params", VDict [("id", VStr "ext6")])]
                eq_refl eq_refl) as (_ & Hpresent).
    destruct (Hpresent (VStr "CheckTransaction") (VDict [("id", VStr "ext6")])
                eq_refl eq_refl) as (_ & _ & _ & _ & Hcheck & _).
    exact (Hcheck eq_refl).
  - destruct (dispatch_by_method Example.env 0 unknown Example.st0
                [("method", VStr "SetFiscalData"); ("params", VDict [])]
                eq_refl eq_refl) as (_ & Hpresent).
    destruct (Hpresent (VStr "SetFiscalData") (VDict []) eq_refl eq_refl)
      as (_ & _ & _ & _ & _ & _ & Hother & _).
    apply (Hother "SetFiscalData" eq_refl).
    unfold method_names. cbn [In].
    intros [H | [H | [H | [H | [H | [H | []]]]]]]; discriminate H.
Defined.

Lemma statement_witness :
  let params := VDict [("from", VInt 1700000000000); ("to", VInt 1700000200000)] in
  exists transactions,
    get_statement Example.env params Example.st0
    = (Ok (GetStatement (map (statement_entry Example.env) transactions)),
       Example.st0) /\
    (forall t, In t transactions ->
               1700000000000000 <= T.created_at t <= 1700000200000000
               /\ In t (rows Example.st0)) /\
    (forall t, In t (rows Example.st0) ->
               1700000000000000 <= T.created_at t <= 1700000200000000 ->
               In t transactions) /\
    Permutation transactions
      (filter (T.in_range 1700000000000000 1700000200000000) (rows Example.st0)) /\
    StronglySorted latest_first transactions.
Proof.
  intros params.
  exact (statement_in_range_latest_first Example.env params Example.st0
           (VInt 1700000000000) (VInt 1700000200000)
           1700000000000000 1700000200000000
           eq_refl eq_refl eq_refl eq_refl).
Defined.

Lemma pk_unique_st0 : pk_unique (rows Example.st0).
Proof.
  unfold pk_unique. cbn.
  repeat (constructor; [ cbn; intros H; repeat destruct H as [H | H];
                         try discriminate H; exact H | ]).
  constructor.
Defined.

Lemma perform_retry_witness :
  let params := VDict [("id", VStr "ext7")] in
  let first := perform_transaction Example.env 1700000400000000 params Example.st0 in
  fst first = Ok (PerformTransaction (VStr "ext7") 2 1700000400000) /\
  perform_transaction Example.env 1700000500000000 params (snd first)
  = (Ok (PerformTransaction (VStr "ext7") 2 1700000400000), snd first).
Proof.
  intros params first. split; [ reflexivity | ].
  destruct (perform_retry_is_idempotent Example.env params Example.st0)
    as (_ & Hretry).
  exact (Hretry 1700000400000000
           (PerformTransaction (VStr "ext7") 2 1700000400000) (snd first)
           pk_unique_st0 eq_refl 1700000500000000).
Defined.

Lemma cancel_witness :
  let params := VDict [("id", VStr "ext6"); ("reason", VInt 3)] in
  let first := cancel_transaction Example.env 1700000400000000 params Example.st0 in
  fst first = Ok (CancelTransaction (VStr "ext6") (-2) 1700000400000) /\
  cancel_transaction Example.env 1700000500000000 params (snd first)
  = (Ok (CancelTransaction (VStr "ext6") (-2) 1700000400000), snd first).
Proof.
  intros params first.
  destruct (cancel_retry_and_state_code Example.env params Example.st0)
    as (Hfirst & Hretry).
  split.
  - destruct (Hfirst 1700000400000000 (VStr "ext6") (VInt 3) Example.order6
                eq_refl eq_refl eq_refl) as (_ & Hcancel).
    unfold first. rewrite (Hcancel eq_refl). reflexivity.
  - exact (Hretry 1700000400000000
             (CancelTransaction (VStr "ext6") (-2) 1700000400000) (snd first)
             pk_unique_st0 eq_refl 1700000500000000).
Defined.

Lemma create_twice_witness :
  let first := create_transaction Example.env Example.create_params Example.st0 in
  fst first = Ok (CreateTransaction (VStr "ext1") 1 1700000000000) /\
  exists st2,
    create_transaction Example.env Example.create_params (snd first)
    = (Ok (CreateTransaction (VStr "ext1") 1 1700000000000), st2) /\
    rows st2 = rows (snd first).
Proof.
  intros first. split; [ reflexivity | ].
  destruct (create_transaction_twice Example.env Example.create_params
              Example.st0 (snd first)
              (CreateTransaction (VStr "ext1") 1 1700000000000) eq_refl)
    as (Hagain & _).
  exact Hagain.
Defined.

(** * More of the view *)

(** ** What a computation keeps *)

(** [keeps R m]: from every state, [m] ends in a state related to it by
    [R], whether it answers or raises. *)
Definition keeps {A : Type} (R : State -> State -> Prop) (m : M A) : Prop :=
  forall st, R st (snd (m st)).

(** No row is added, removed or given another key. *)
Definition same_keys (st st' : State) : Prop :=
  map T.id (rows st') = map T.id (rows st).

(** Hook calls are only appended. *)
Definition hooks_grow (st st' : State) : Prop :=
  exists calls, hooks st' = (hooks st ++ calls)%list.

Section Keeps.

Variable R : State -> State -> Prop.
Hypothesis R_refl : forall st, R st st.
Hypothesis R_trans : forall a b c, R a b -> R b c -> R a c.

Lemma keeps_ret {A : Type} (a : A) : keeps R (ret a).
Proof. intros st. apply R_refl. Qed.

Lemma keeps_raise {A : Type} (e : exn) : keeps R (@raise A e).
Proof. intros st. apply R_refl. Qed.

Lemma keeps_lift {A : Type} (r : result A) : keeps R (lift r).
Proof. intros st. apply R_refl. Qed.

Lemma keeps_query {A : Type} (q : T.objects -> result A) : keeps R (query q).
Proof. intros st. apply R_refl. Qed.

Lemma keeps_bind {A B : Type} (m : M A) (k : A -> M B) :
  keeps R m -> (forall a, keeps R (k a)) -> keeps R (bind m k).
Proof.
  intros Hm Hk st. unfold bind. specialize (Hm st).
  destruct (m st) as [[a | e] st']; cbn [snd] in *.
  - apply R_trans with st'; [ exact Hm | apply Hk ].
  - exact Hm.
Qed.

Lemma keeps_handle_exceptions {A : Type} (func : M A) :
  keeps R func -> keeps R (handle_exceptions func).
Proof.
  intros Hf st. unfold handle_exceptions. specialize (Hf st).
  destruct (func st) as [[a | [[ | | k | | | | | | | ] | [ m | m | m | m | m | m ]]] st'];
    exact Hf.
Qed.

End Keeps.

Ltac keeps_steps :=
  repeat first
    [ apply keeps_handle_exceptions
    | apply keeps_bind; [ assumption | | intros ? ]
    | apply keeps_ret; assumption
    | apply keeps_raise; assumption
    | apply keeps_lift; assumption
    | apply keeps_query; assumption
    | match goal with
      | |- keeps _ (if ?b then _ else _) => destruct b
      | |- keeps _ (let _ := _ in _) => cbv zeta
      end ].

(** ** Handlers that only read *)

Lemma eq_keeps_refl : forall st : State, st = st.
Proof. reflexivity. Qed.

Lemma eq_keeps_trans : forall a b c : State, a = b -> b = c -> a = c.
Proof. intros a b c -> ->. reflexivity. Qed.

Lemma reading_handlers_keep (env : Env) (params : value) :
  keeps eq (check_perform_transaction env params) /\
  keeps eq (check_transaction env params) /\
  keeps eq (get_statement env params).
Proof.
  pose proof eq_keeps_refl as Hr. pose proof eq_keeps_trans as Ht.
  split; [ | split ].
  - unfold check_perform_transaction. keeps_steps.
  - unfold check_transaction. keeps_steps.
  - unfold get_statement. keeps_steps.
Qed.

(** X1.  [check_perform_transaction], [check_transaction] and
    [get_statement] leave the rows and the hook calls as they are, on every
    params and whether they answer or raise; so does a [post] that ends in
    one of them. *)
Theorem reading_handlers_change_nothing
  (env : Env) (now : Z) (params : value) (st : State) :
  snd (check_perform_transaction env params st) = st /\
  snd (check_transaction env params st) = st /\
  snd (get_statement env params st) = st /\
  (forall request items name,
      check_authorize env request = Ok tt ->
      request_data request = VDict items ->
      Py.dict_find "method" items = Some (VStr name) ->
      Py.dict_find "params" items = Some params ->
      In name ["CheckPerformTransaction"; "CheckTransaction"; "GetStatement"] ->
      snd (post env now request st) = st).
Proof.
  destruct (reading_handlers_keep env params) as (H1 & H2 & H3).
  split; [ symmetry; apply H1 | ].
  split; [ symmetry; apply H2 | ].
  split; [ symmetry; apply H3 | ].
  intros request items name Hauth Hdata Hm Hp Hin.
  rewrite (post_authorized env now request st items (VStr name) params
             Hauth Hdata Hm Hp).
  cbn [In] in Hin.
  destruct Hin as [<- | [<- | [<- | []]]]; cbn; symmetry;
    [ apply H1 | apply H2 | apply H3 ].
Qed.

(** ** No raw exception leaves a handler *)

Definition payme_or_ok {A : Type} (r : result A) : Prop :=
  match r with
  | Ok _ => True
  | Raise (Payme _) => True
  | Raise (Raw _) => False
  end.

Lemma handle_exceptions_closes {A : Type} (func : M A) (st : State) :
  payme_or_ok (fst (handle_exceptions func st)).
Proof.
  unfold handle_exceptions.
  destruct (func st)
    as [[a | [[ | | k | | | | | | | ] | [ m | m | m | m | m | m ]]] st'];
    exact I.
Qed.

(** Whatever the params and the state, each of the six handlers answers
    or raises one of Payme's exceptions. *)
Lemma handlers_raise_only_payme
  (env : Env) (now : Z) (params : value) (st : State) :
  payme_or_ok (fst (check_perform_transaction env params st)) /\
  payme_or_ok (fst (create_transaction env params st)) /\
  payme_or_ok (fst (perform_transaction env now params st)) /\
  payme_or_ok (fst (check_transaction env params st)) /\
  payme_or_ok (fst (cancel_transaction env now params st)) /\
  payme_or_ok (fst (get_statement env params st)).
Proof. repeat split; apply handle_exceptions_closes. Qed.

Lemma find_method_closes (env : Env) (now : Z) (name : string)
      (handler : value -> M response) (params : value) (st : State) :
  find_method name (payme_methods env now) = Some handler ->
  payme_or_ok (fst (handler params st)).
Proof.
  destruct (handlers_raise_only_payme env now params st)
    as (H1 & H2 & H3 & H4 & H5 & H6).
  unfold payme_methods, find_method.
  repeat match goal with
         | |- context [String.eqb name ?k] => destruct (String.eqb name k)
         end;
    intros H; inversion H; subst; assumption.
Qed.

(** What [post] may let out once the body is parsed. *)
Definition answer_or_known_escape (r : result response) : Prop :=
  match r with
  | Ok _ => True
  | Raise (Payme _) => True
  | Raise (Raw IndexError) => True
  | Raise (Raw ValueError) => True
  | Raise (Raw TypeError) => True
  | Raise (Raw _) => False
  end.

(** X2.  What can leave the view, for a request whose body the framework
    has parsed.  Each handler, under [handle_exceptions], answers or raises
    one of Payme's exceptions, on every params and state; [post] itself
    answers, raises one of Payme's exceptions, or lets out an [IndexError]
    or a [ValueError] (from [check_authorize]) or a [TypeError] (from a
    body or a method it cannot subscript or hash); no [KeyError] and no
    [DoesNotExist] leaves it.  (A body that the parser refuses raises the
    framework's own exception at the first read of [request.data]; that
    is not a [Request] of this model.) *)
Theorem what_leaves_the_view
  (env : Env) (now : Z) (request : Request) (params : value) (st : State) :
  (payme_or_ok (fst (check_perform_transaction env params st)) /\
   payme_or_ok (fst (create_transaction env params st)) /\
   payme_or_ok (fst (perform_transaction env now params st)) /\
   payme_or_ok (fst (check_transaction env params st)) /\
   payme_or_ok (fst (cancel_transaction env now params st)) /\
   payme_or_ok (fst (get_statement env params st))) /\
  answer_or_known_escape (fst (post env now request st)).
Proof.
  split; [ repeat split; apply handle_exceptions_closes | ].
  unfold post, bind, lift, raise.
  destruct (check_authorize_outcomes env request)
    as [H | [[m H] | [H | H]]]; rewrite H; try exact I.
  unfold Py.getitem.
  destruct (request_data request) as [ | b | z | s | l | items ]; try exact I.
  destruct (Py.dict_find "method" items) as [method | ]; [ | exact I ].
  destruct (Py.dict_find "params" items) as [ps | ]; [ | exact I ].
  destruct method as [ | b | z | name | l | kvs ]; cbn [lookup_method];
    try exact I.
  destruct (find_method name (payme_methods env now)) as [handler | ] eqn:Hfind;
    [ | exact I ].
  pose proof (find_method_closes env now name handler ps st Hfind) as Hc.
  destruct (handler ps st) as [[res | [e | e]] st']; cbn [fst] in *;
    [ exact I | contradiction | exact I ].
Qed.

(** ** Hook calls *)

Ltac case_exn e :=
  destruct e as [[ | | ? | | | | | | | ] | [ ? | ? | ? | ? | ? | ? ]];
  cbn beta iota zeta.

(** X3.  A hook is called only by a call that answers, once, and with the
    params received and the response returned.  [create_transaction] calls
    [handle_created_payment] every time it answers, also on a repeated
    call; [perform_transaction] and [cancel_transaction] either change
    nothing at all (the transaction was already performed, or cancelled) or
    call their hook; a call that raises calls no hook. *)
Theorem hooks_follow_success
  (env : Env) (now : Z) (params : value) (st : State) :
  match create_transaction env params st with
  | (Ok res, st') =>
      hooks st' = (hooks st ++ [handle_created_payment params res])%list
  | (Raise _, st') => hooks st' = hooks st
  end /\
  match perform_transaction env now params st with
  | (Ok res, st') =>
      st' = st \/
      hooks st' = (hooks st ++ [handle_successfully_payment params res])%list
  | (Raise _, st') => hooks st' = hooks st
  end /\
  match cancel_transaction env now params st with
  | (Ok res, st') =>
      st' = st \/
      hooks st' = (hooks st ++ [handle_cancelled_payment params res])%list
  | (Raise _, st') => hooks st' = hooks st
  end.
Proof.
  split; [ | split ]; unfold_handler.
  - destruct (Py.getitem params "id") as [payme_tr_id | e]; cbn beta iota zeta;
      [ | case_exn e; reflexivity ].
    destruct (Py.getitem params "account") as [account | e]; cbn beta iota zeta;
      [ | case_exn e; reflexivity ].
    destruct (Py.get account (PAYME_ACCOUNT_FIELD env) VNone) as [tid | e];
      cbn beta iota zeta; [ | case_exn e; reflexivity ].
    destruct (Py.truthy tid); cbn [negb]; [ | reflexivity ].
    destruct (T.get_by_id env tid (rows st)) as [tran | e]; cbn beta iota zeta;
      [ | case_exn e; reflexivity ].
    destruct (Py.get params "amount" (VInt 0)) as [v | e]; cbn beta iota zeta;
      [ | case_exn e; reflexivity ].
    destruct (to_Decimal env v) as [amount | e]; cbn beta iota zeta;
      [ | case_exn e; reflexivity ].
    destruct (Dec.neb amount (Dec.mul_int (T.total_price tran) 100));
      [ reflexivity | ].
    destruct (Py.truthy (T.ext_id tran)); cbn; reflexivity.
  - destruct (Py.getitem params "id") as [payme_tr_id | e]; cbn beta iota zeta;
      [ | case_exn e; reflexivity ].
    destruct (T.get_by_ext_id payme_tr_id (rows st)) as [tran | e];
      cbn beta iota zeta; [ | case_exn e; reflexivity ].
    destruct (T.is_performed tran); [ left; reflexivity | ].
    unfold T.mark_as_performed.
    destruct (T.status tran); cbn; try reflexivity.
    right. reflexivity.
  - destruct (Py.getitem params "id") as [payme_tr_id | e]; cbn beta iota zeta;
      [ | case_exn e; reflexivity ].
    destruct (Py.getitem params "reason") as [cancel_reason | e];
      cbn beta iota zeta; [ | case_exn e; reflexivity ].
    destruct (T.get_by_ext_id payme_tr_id (rows st)) as [tran | e];
      cbn beta iota zeta; [ | case_exn e; reflexivity ].
    destruct (T.is_cancelled tran); [ left; reflexivity | ].
    unfold T.mark_as_cancelled. cbn. right. reflexivity.
Qed.

(** ** The keys of the rows *)

Lemma same_keys_refl : forall st, same_keys st st.
Proof. intros st. reflexivity. Qed.

Lemma same_keys_trans :
  forall a b c, same_keys a b -> same_keys b c -> same_keys a c.
Proof. unfold same_keys. intros a b c Hab Hbc. rewrite Hbc. exact Hab. Qed.

Lemma save_keys (tran : T.t) (rows : T.objects) :
  map T.id (T.save tran rows) = map T.id rows.
Proof.
  unfold T.save. rewrite map_map. apply map_ext_in. intros r _.
  destruct (Z.eqb_spec (T.id r) (T.id tran)) as [E | _];
    [ symmetry; exact E | reflexivity ].
Qed.

Lemma save_ext_id_keys (tran : T.t) (rows : T.objects) :
  map T.id (T.save_ext_id tran rows) = map T.id rows.
Proof.
  unfold T.save_ext_id. rewrite map_map. apply map_ext. intros r.
  destruct (T.id r =? T.id tran); reflexivity.
Qed.

Lemma call_hook_keys (h : hook_call) : keeps same_keys (call_hook h).
Proof. intros st. reflexivity. Qed.

Ltac keys_steps :=
  pose proof same_keys_refl as Hrefl; pose proof same_keys_trans as Htrans;
  repeat first
    [ apply keeps_handle_exceptions
    | apply keeps_bind; [ assumption | | intros ? ]
    | apply keeps_ret; assumption
    | apply keeps_raise; assumption
    | apply keeps_lift; assumption
    | apply keeps_query; assumption
    | apply call_hook_keys
    | match goal with
      | |- keeps _ (if ?b then _ else _) => destruct b
      | |- keeps _ (let _ := _ in _) => cbv zeta
      end ].

Lemma create_transaction_keys (env : Env) (params : value) :
  keeps same_keys (create_transaction env params).
Proof.
  unfold create_transaction. keys_steps.
  intros st. unfold same_keys. cbn [snd rows]. apply save_ext_id_keys.
Qed.

Lemma perform_transaction_keys (env : Env) (now : Z) (params : value) :
  keeps same_keys (perform_transaction env now params).
Proof.
  unfold perform_transaction. keys_steps.
  intros st. unfold same_keys, T.mark_as_performed.
  destruct (T.status a0); cbn [snd rows negb]; try reflexivity.
  apply save_keys.
Qed.

Lemma cancel_transaction_keys (env : Env) (now : Z) (params : value) :
  keeps same_keys (cancel_transaction env now params).
Proof.
  unfold cancel_transaction. keys_steps.
  intros st. unfold same_keys, T.mark_as_cancelled. cbn [snd rows].
  apply save_keys.
Qed.

Lemma reading_handlers_keys (env : Env) (params : value) :
  keeps same_keys (check_perform_transaction env params) /\
  keeps same_keys (check_transaction env params) /\
  keeps same_keys (get_statement env params).
Proof.
  destruct (reading_handlers_keep env params) as (H1 & H2 & H3).
  repeat split; intros st; unfold same_keys;
    [ rewrite <- (H1 st) | rewrite <- (H2 st) | rewrite <- (H3 st) ];
    reflexivity.
Qed.

Lemma find_method_keys (env : Env) (now : Z) (name : string)
      (handler : value -> M response) (params : value) :
  find_method name (payme_methods env now) = Some handler ->
  keeps same_keys (handler params).
Proof.
  destruct (reading_handlers_keys env params) as (Hcp & Hct & Hgs).
  unfold payme_methods, find_method.
  repeat match goal with
         | |- context [String.eqb name ?k] => destruct (String.eqb name k)
         end;
    intros H; inversion H; subst;
    first [ exact Hcp | exact Hct | exact Hgs
          | apply create_transaction_keys
          | apply perform_transaction_keys
          | apply cancel_transaction_keys ].
Qed.

Lemma post_same_keys (env : Env) (now : Z) (request : Request) :
  keeps same_keys (post env now request).
Proof.
  intros st. unfold same_keys, post, bind, lift, raise.
  destruct (check_authorize env request) as [[] | e]; [ | reflexivity ].
  match goal with
  | |- context [match ?envelope with Ok _ => _ | Raise _ => _ end] =>
      destruct envelope as [[method params] | e]; [ | reflexivity ]
  end.
  destruct (lookup_method env now method) as [[handler | ] | e] eqn:Hlookup;
    try reflexivity.
  destruct method; try discriminate Hlookup.
  cbn [lookup_method] in Hlookup. inversion Hlookup as [Hfind].
  apply (find_method_keys env now s handler params Hfind).
Qed.

(** X4.  No call of [post], whatever the request and however it ends, adds
    or removes a row or changes a primary key: the keys of the rows, in
    order, are those it found; so a store whose keys are unique keeps
    unique keys through any sequence of calls. *)
Theorem post_keeps_the_keys (env : Env) (now : Z) (request : Request) (st : State) :
  map T.id (rows (snd (post env now request st))) = map T.id (rows st) /\
  (pk_unique (rows st) -> pk_unique (rows (snd (post env now request st)))) /\
  (forall requests : list (Z * Request),
      pk_unique (rows st) ->
      pk_unique
        (rows (fold_left (fun s call => snd (post env (fst call) (snd call) s))
                         requests st))).
Proof.
  pose proof (post_same_keys env) as Hkeys.
  assert (Hone : forall n r s,
             pk_unique (rows s) -> pk_unique (rows (snd (post env n r s)))).
  { intros n r s Hpk. unfold pk_unique. rewrite (Hkeys n r s). exact Hpk. }
  split; [ apply Hkeys | ].
  split; [ apply Hone | ].
  intros requests. revert st.
  induction requests as [ | [n r] rest IH ]; intros st Hpk; cbn [fold_left].
  - exact Hpk.
  - apply IH. apply Hone. exact Hpk.
Qed.

(** ** Lookups by external id *)

Lemma get_by_ext_id_missing (v : value) (rows : T.objects) :
  (forall r, In r rows -> Py.value_eqb (T.ext_id r) v = false) ->
  T.get_by_ext_id v rows = Raise (Raw DoesNotExist).
Proof.
  intros Hno. unfold T.get_by_ext_id, T.get.
  replace (filter (fun r => Py.value_eqb (T.ext_id r) v) rows) with (@nil T.t);
    [ reflexivity | ].
  symmetry. induction rows as [ | r l IH ]; [ reflexivity | ].
  cbn [filter]. rewrite (Hno r (or_introl eq_refl)).
  apply IH. intros r' Hin. apply Hno. right. exact Hin.
Qed.

(** X5.  When no stored transaction has the external id of the call,
    [perform_transaction], [check_transaction] and [cancel_transaction]
    raise [AccountDoesNotExist] (the translation of the repository's
    [DoesNotExist]) and leave the state as it is. *)
Theorem unknown_external_id
  (env : Env) (now : Z) (params : value) (st : State) (payme_tr_id : value) :
  Py.getitem params "id" = Ok payme_tr_id ->
  (forall r, In r (rows st) -> Py.value_eqb (T.ext_id r) payme_tr_id = false) ->
  perform_transaction env now params st = (Raise account_does_not_exist, st) /\
  check_transaction env params st = (Raise account_does_not_exist, st) /\
  (forall cancel_reason,
      Py.getitem params "reason" = Ok cancel_reason ->
      cancel_transaction env now params st = (Raise account_does_not_exist, st)).
Proof.
  intros Hid Hno.
  pose proof (get_by_ext_id_missing payme_tr_id (rows st) Hno) as Hmiss.
  split; [ | split; [ | intros cancel_reason Hreason ] ]; unfold_handler.
  - run_with Hid. rewrite Hmiss. reflexivity.
  - run_with Hid. rewrite Hmiss. reflexivity.
  - run_with Hid. run_with Hreason. rewrite Hmiss. reflexivity.
Qed.

(** ** Params that lack what a handler reads *)

Definition unexpected (e : raw_exn) : exn :=
  Payme (InternalServiceError [StrExc e]).

(** The params are not a mapping: a list, a str, a number or [None]. *)
Definition not_a_mapping (v : value) : Prop :=
  match v with VDict _ => False | _ => True end.

(** X6.  A params mapping that lacks a key a handler subscripts ("id" for
    create, perform, check and cancel; "reason" for cancel; "from" or "to"
    for the statement) makes it raise [InternalServiceError] with the
    message "Invalid parameters received.", before any lookup and with the
    state unchanged; [cancel_transaction] asks for its "reason" even when
    the transaction is already cancelled. *)
Theorem missing_key_is_invalid_parameters
  (env : Env) (now : Z) (items : list (string * value)) (st : State) :
  (Py.dict_find "id" items = None ->
   create_transaction env (VDict items) st = (Raise invalid_parameters, st) /\
   perform_transaction env now (VDict items) st = (Raise invalid_parameters, st) /\
   check_transaction env (VDict items) st = (Raise invalid_parameters, st) /\
   cancel_transaction env now (VDict items) st = (Raise invalid_parameters, st)) /\
  (Py.dict_find "reason" items = None ->
   cancel_transaction env now (VDict items) st = (Raise invalid_parameters, st)) /\
  (Py.dict_find "from" items = None ->
   get_statement env (VDict items) st = (Raise invalid_parameters, st)) /\
  (forall from from_time,
      Py.dict_find "from" items = Some from ->
      time_to_service env from = Some from_time ->
      Py.dict_find "to" items = None ->
      get_statement env (VDict items) st = (Raise invalid_parameters, st)).
Proof.
  split; [ | split; [ | split ] ].
  - intros Hid. repeat split; unfold_handler; cbn [Py.getitem];
      rewrite Hid; reflexivity.
  - intros Hreason. unfold_handler; cbn [Py.getitem].
    destruct (Py.dict_find "id" items); cbn beta iota;
      [ rewrite Hreason | ]; reflexivity.
  - intros Hfrom. unfold_handler; cbn [Py.getitem]. rewrite Hfrom. reflexivity.
  - intros from from_time Hfrom Hft Hto. unfold_handler; cbn [Py.getitem].
    rewrite Hfrom; cbn beta iota. unfold to_service. rewrite Hft; cbn beta iota.
    rewrite Hto. reflexivity.
Qed.

(** X7.  Params that are not a mapping (a list, a str, a number, [None])
    make every handler raise [InternalServiceError] whose message is the
    text of the [TypeError] of the first subscript; the state is
    unchanged. *)
Theorem params_not_a_mapping
  (env : Env) (now : Z) (params : value) (st : State) :
  not_a_mapping params ->
  check_perform_transaction env params st = (Raise (unexpected TypeError), st) /\
  create_transaction env params st = (Raise (unexpected TypeError), st) /\
  perform_transaction env now params st = (Raise (unexpected TypeError), st) /\
  check_transaction env params st = (Raise (unexpected TypeError), st) /\
  cancel_transaction env now params st = (Raise (unexpected TypeError), st) /\
  get_statement env params st = (Raise (unexpected TypeError), st).
Proof.
  intros Hnot. destruct params; try contradiction; repeat split; reflexivity.
Qed.

(** X8.  When the transaction found is not performed and
    [mark_as_performed] answers [False], [perform_transaction] raises
    [InternalServiceError]: the one it raises itself ("Cannot perform
    transaction"), raised anew by [handle_exceptions] with its text as
    message.  The rows are as [mark_as_performed] left them and
    [handle_successfully_payment] is not called. *)
Theorem refused_perform
  (env : Env) (now : Z) (params : value) (st : State) (payme_tr_id : value)
  (tran tran' : T.t) (rows' : T.objects) :
  Py.getitem params "id" = Ok payme_tr_id ->
  T.get_by_ext_id payme_tr_id (rows st) = Ok tran ->
  T.is_performed tran = false ->
  T.mark_as_performed now tran (rows st) = (false, tran', rows') ->
  perform_transaction env now params st
  = (Raise (Payme (InternalServiceError
                     [StrInternal [Lit "Cannot perform transaction"]])),
     {| rows := rows'; hooks := hooks st |}).
Proof.
  intros Hid Hget Hp Hmark. unfold_handler. run_with Hid. run_with Hget.
  rewrite Hp, Hmark. reflexivity.
Qed.

(** ** More on authorization *)

Lemma last_item_cons {A : Type} (x : A) (l : list A) :
  l <> [] -> Py.last_item (x :: l) = Py.last_item l.
Proof. destruct l; [ congruence | reflexivity ]. Qed.

Lemma split_on_nonempty (sep : N) (cur : list N) (s : Py.str) :
  Py.split_on_from sep cur s <> [].
Proof.
  intros H. apply (split_on_last sep cur s). rewrite H. reflexivity.
Qed.

(** The last segment of [s.split(sep)] holds no separator. *)
Lemma last_segment_has_no_separator (sep : N) (s : Py.str) :
  forall cur k,
    ~ In sep cur ->
    Py.last_item (Py.split_on_from sep cur s) = Some k ->
    ~ In sep k.
Proof.
  induction s as [ | c rest IH ]; intros cur k Hcur; cbn [Py.split_on_from].
  - cbn [Py.last_item]. intros H; inversion H; subst.
    rewrite <- in_rev. exact Hcur.
  - destruct (N.eqb_spec c sep) as [-> | Hne].
    + rewrite last_item_cons by apply split_on_nonempty.
      apply IH. intros [].
    + apply IH. intros [E | Hin]; [ congruence | exact (Hcur Hin) ].
Qed.

(** X9.  A merchant key that holds a colon can never be presented: the key
    compared is what follows the last colon of the decoded credentials, so
    with such a [PAYME_KEY] no header at all passes [check_authorize]. *)
Theorem key_with_colon_never_passes (env : Env) (request : Request) :
  In 58%N (PAYME_KEY env) ->
  check_authorize env request <> Ok tt.
Proof.
  intros Hcolon. unfold check_authorize.
  destruct (HTTP_AUTHORIZATION request) as [[ | c password] | ];
    try discriminate.
  destruct (Py.last_item (Py.split_ws (Py.codes (String c password))))
    as [token | ]; [ | discriminate ].
  unfold Base64.b64decode.
  destruct (forallb (fun c0 => (c0 <? 128)%N) token); [ | discriminate ].
  destruct (Base64.a2b token 0 0 0 []) as [bytes | ]; [ | discriminate ].
  destruct (Base64.utf8_decode bytes) as [decoded | ]; [ | discriminate ].
  destruct (Py.last_item (Py.split_on 58 decoded)) as [payme_key | ] eqn:Hlast;
    [ | discriminate ].
  unfold Py.str_eqb.
  destruct (list_eq_dec N.eq_dec payme_key (PAYME_KEY env)) as [E | _];
    cbn [negb]; [ | discriminate ].
  exfalso. subst payme_key.
  apply (last_segment_has_no_separator 58 decoded [] (PAYME_KEY env));
    [ intros [] | exact Hlast | exact Hcolon ].
Qed.

(** X10.  The refusal "Invalid merchant key format in authentication
    credentials" is never given: its clause catches the [IndexError] of
    [password.split(':')[-1]], and a split on a separator is never
    empty. *)
Theorem invalid_key_format_is_never_raised (env : Env) (request : Request) :
  check_authorize env request
  <> Raise (Payme (PermissionDenied
              [Lit "Invalid merchant key format in authentication credentials"])).
Proof.
  unfold check_authorize.
  destruct (HTTP_AUTHORIZATION request) as [[ | c password] | ];
    try discriminate.
  destruct (Py.last_item (Py.split_ws (Py.codes (String c password))))
    as [token | ]; [ | discriminate ].
  unfold Base64.b64decode.
  destruct (forallb (fun c0 => (c0 <? 128)%N) token); [ | discriminate ].
  destruct (Base64.a2b token 0 0 0 []) as [bytes | ]; [ | discriminate ].
  destruct (Base64.utf8_decode bytes) as [decoded | ]; [ | discriminate ].
  destruct (Py.last_item (Py.split_on 58 decoded)) as [payme_key | ] eqn:Hlast.
  - destruct (negb (Py.str_eqb payme_key (PAYME_KEY env))); discriminate.
  - exfalso. exact (split_on_last 58 [] decoded Hlast).
Qed.

Lemma codes_app (a b : string) :
  Py.codes (a ++ b) = (Py.codes a ++ Py.codes b)%list.
Proof.
  induction a as [ | c a IH ]; [ reflexivity | ].
  cbn [append Py.codes app]. rewrite IH. reflexivity.
Qed.

Definition no_space (s : Py.str) : bool :=
  forallb (fun c => negb (Py.isspace c)) s.

Lemma split_ws_word (t : Py.str) :
  no_space t = true ->
  forall cur, cur <> [] \/ t <> [] ->
  Py.split_ws_from cur t = [(rev cur ++ t)%list].
Proof.
  unfold no_space.
  induction t as [ | c rest IH ]; intros Hns cur Hne; cbn [Py.split_ws_from].
  - destruct cur as [ | x cur' ]; [ destruct Hne; congruence | ].
    rewrite app_nil_r. reflexivity.
  - cbn [forallb] in Hns. apply andb_true_iff in Hns. destruct Hns as [Hc Hrest].
    apply negb_true_iff in Hc. rewrite Hc.
    rewrite (IH Hrest (c :: cur)) by (left; discriminate).
    cbn [rev]. rewrite <- app_assoc. reflexivity.
Qed.

Lemma last_word (t : Py.str) :
  no_space t = true -> t <> [] ->
  forall s cur,
    Py.last_item (Py.split_ws_from cur (s ++ 32%N :: t)%list) = Some t.
Proof.
  intros Hns Hne.
  assert (Hword : Py.split_ws_from [] t = [t])
    by (rewrite (split_ws_word t Hns []) by (right; exact Hne); reflexivity).
  induction s as [ | c rest IH ]; intros cur; cbn [app Py.split_ws_from].
  - change (Py.isspace 32) with true. cbn beta iota.
    destruct cur; rewrite Hword; reflexivity.
  - destruct (Py.isspace c).
    + destruct cur as [ | x cur' ]; [ apply IH | ].
      rewrite last_item_cons; [ apply IH | ].
      intros E. specialize (IH []). rewrite E in IH. discriminate IH.
    + apply IH.
Qed.

(** X11.  Only the last word of the header is looked at.  Whatever precedes
    the token (the scheme "Basic", another word, several words or nothing)
    the outcome of [check_authorize] is the one of the bare token. *)
Theorem scheme_is_not_checked
  (env : Env) (body : value) (scheme token : string) :
  token <> EmptyString ->
  no_space (Py.codes token) = true ->
  check_authorize env {| HTTP_AUTHORIZATION := Some (scheme ++ " " ++ token);
                         request_data := body |}
  = check_authorize env {| HTTP_AUTHORIZATION := Some token;
                           request_data := body |}.
Proof.
  intros Hne Hns.
  assert (Hcodes : Py.codes token <> [])
    by (destruct token; [ congruence | discriminate ]).
  assert (Hlong : Py.last_item (Py.split_ws (Py.codes (scheme ++ " " ++ token)))
                  = Some (Py.codes token)).
  { rewrite codes_app. cbn [append Py.codes].
    change (N_of_ascii " ") with 32%N.
    apply (last_word (Py.codes token) Hns Hcodes). }
  assert (Hshort : Py.last_item (Py.split_ws (Py.codes token))
                   = Some (Py.codes token)).
  { unfold Py.split_ws.
    rewrite (split_ws_word (Py.codes token) Hns []) by (right; exact Hcodes).
    reflexivity. }
  unfold check_authorize. cbn [HTTP_AUTHORIZATION].
  destruct token as [ | c t ]; [ congruence | ].
  destruct (scheme ++ " " ++ String c t) as [ | c' rest ] eqn:Hheader.
  - destruct scheme; discriminate Hheader.
  - rewrite Hlong, Hshort. reflexivity.
Qed.

(** ** Bodies that [post] does not expect *)

(** X12.  For an authorized request, a body that is not a mapping, and a
    "method" that is a list or a mapping, make [post] let a [TypeError]
    out: [post] is not under [handle_exceptions] and catches [KeyError]
    only.  No handler runs and the state is unchanged. *)
Theorem post_lets_type_errors_out
  (env : Env) (now : Z) (request : Request) (st : State) :
  check_authorize env request = Ok tt ->
  (not_a_mapping (request_data request) ->
   post env now request st = (Raise (Raw TypeError), st)) /\
  (forall items method params,
      request_data request = VDict items ->
      Py.dict_find "method" items = Some method ->
      Py.dict_find "params" items = Some params ->
      match method with
      | VList _ | VDict _ => post env now request st = (Raise (Raw TypeError), st)
      | _ => True
      end).
Proof.
  intros Hauth. split.
  - intros Hnot. unfold post, bind, lift. rewrite Hauth.
    destruct (request_data request); try contradiction; reflexivity.
  - intros items method params Hdata Hm Hp.
    rewrite (post_authorized env now request st items method params
               Hauth Hdata Hm Hp).
    destruct method; try exact I; reflexivity.
Qed.

(** ** More on amounts *)

Definition allowed : response := CheckPerformTransaction true.

(** X13.  For a price kept with decimals ([c * 10 ^ e], [e <= 0])
    whose product with 100 fits the 28 digits of the decimal context, an
    int amount [a] passes the check of [check_perform_transaction] exactly
    when [a * 10 ^ (- e) = c * 100], that is when [a] is the price in
    hundredths (for two decimals: [a = c]); any other int raises
    [IncorrectAmount]. *)
Theorem int_amount_is_hundredths
  (env : Env) (params : value) (st : State) (tran : T.t) (c e a : Z) :
  resolves env params (rows st) tran ->
  T.total_price tran = Fin c e ->
  Dec.fits (Fin c e) 100 = true ->
  e <= 0 ->
  Py.get params "amount" (VInt 0) = Ok (VInt a) ->
  check_perform_transaction env params st
  = if a * 10 ^ (- e) =? c * 100
    then (Ok allowed, st)
    else (Raise (incorrect_amount (Fin (c * 100) e) (Fin a 0)), st).
Proof.
  intros (account & tid & Hacc & Hget & Htrue & Hrow) Hprice Hfits He Hamount.
  unfold_handler.
  run_with Hacc. run_with Hget. rewrite Htrue. cbn [negb].
  run_with Hrow. run_with Hamount. cbn [to_Decimal]. rewrite Hprice.
  rewrite (mul_int_fits _ _ Hfits).
  unfold Dec.neb, Dec.eqb, Dec.times.
  rewrite (Z.min_r 0 e) by exact He.
  rewrite Z.sub_diag, Z.pow_0_r, Z.mul_1_r, Z.sub_0_l.
  destruct (a * 10 ^ (- e) =? c * 100); reflexivity.
Qed.

(** X14.  An "amount" that is present but is [None] or a mapping is not read
    as 0: [Decimal] refuses it with a [TypeError] and both handlers raise
    [InternalServiceError], with the state unchanged. *)
Theorem null_amount_is_an_internal_error
  (env : Env) (params : value) (st : State) (tran : T.t) (amount : value) :
  resolves env params (rows st) tran ->
  Py.get params "amount" (VInt 0) = Ok amount ->
  match amount with VNone | VDict _ => True | _ => False end ->
  check_perform_transaction env params st = (Raise (unexpected TypeError), st) /\
  (forall payme_tr_id,
      Py.getitem params "id" = Ok payme_tr_id ->
      create_transaction env params st = (Raise (unexpected TypeError), st)).
Proof.
  intros (account & tid & Hacc & Hget & Htrue & Hrow) Hamount Hkind.
  assert (Hdec : to_Decimal env amount = Raise (Raw TypeError))
    by (destruct amount; try contradiction; reflexivity).
  split; [ | intros payme_tr_id Hid ]; unfold_handler.
  - run_with Hacc. run_with Hget. rewrite Htrue. cbn [negb].
    run_with Hrow. run_with Hamount. rewrite Hdec. reflexivity.
  - run_with Hid. run_with Hacc. run_with Hget. rewrite Htrue. cbn [negb].
    run_with Hrow. run_with Hamount. rewrite Hdec. reflexivity.
Qed.

(** ** What create_transaction writes *)

(** A row without its external id. *)
Definition unlinked (r : T.t) : T.t := T.with_ext_id r VNone.

Definition same_but_ext_id (st st' : State) : Prop :=
  map unlinked (rows st') = map unlinked (rows st).

(** X15.  [create_transaction] writes no column but [ext_id]: on every params
    and however it ends, the rows it leaves are the rows it found up to
    their external ids. *)
Theorem create_transaction_writes_only_ext_id
  (env : Env) (params : value) (st : State) :
  map unlinked (rows (snd (create_transaction env params st)))
  = map unlinked (rows st).
Proof.
  assert (Hrefl : forall s, same_but_ext_id s s) by (intros s; reflexivity).
  assert (Htrans : forall a b c,
             same_but_ext_id a b -> same_but_ext_id b c -> same_but_ext_id a c).
  { unfold same_but_ext_id. intros a b c Hab Hbc. rewrite Hbc. exact Hab. }
  assert (H : keeps same_but_ext_id (create_transaction env params)).
  { unfold create_transaction.
    repeat first
      [ apply keeps_handle_exceptions
      | apply keeps_bind; [ assumption | | intros ? ]
      | apply keeps_ret; assumption
      | apply keeps_raise; assumption
      | apply keeps_lift; assumption
      | apply keeps_query; assumption
      | match goal with
        | |- keeps _ (if ?b then _ else _) => destruct b
        | |- keeps _ (let _ := _ in _) => cbv zeta
        end ].
    - intros s. unfold same_but_ext_id, T.save_ext_id. cbn [snd rows].
      rewrite map_map. apply map_ext. intros r.
      destruct (T.id r =? _); reflexivity.
    - intros s. reflexivity. }
  apply H.
Qed.

(** ** More on statements and on check_transaction *)

Definition checked_response (env : Env) (tran : T.t) : response :=
  CheckTransaction (T.ext_id tran) (T.payme_state tran) (stored_reason tran)
    (time_to_payme env (Some (T.created_at tran)))
    (time_to_payme env (T.confirmed_at tran))
    (time_to_payme env (T.canceled_at tran)).

(** X16.  A range whose end lies before its start is no error: the statement
    is empty, whatever is stored. *)
Theorem reversed_range_gives_empty_statement
  (env : Env) (params : value) (st : State) (from to : value)
  (from_time to_time : Z) :
  Py.getitem params "from" = Ok from ->
  time_to_service env from = Some from_time ->
  Py.getitem params "to" = Ok to ->
  time_to_service env to = Some to_time ->
  to_time < from_time ->
  get_statement env params st = (Ok (GetStatement []), st).
Proof.
  intros Hfrom Hft Hto Htt Hlt. unfold_handler. unfold to_service.
  rewrite Hfrom; cbn beta iota. rewrite Hft; cbn beta iota.
  rewrite Hto; cbn beta iota. rewrite Htt; cbn beta iota.
  unfold statement_rows.
  replace (filter (T.in_range from_time to_time) (rows st)) with (@nil T.t);
    [ reflexivity | ].
  symmetry. induction (rows st) as [ | r l IH ]; [ reflexivity | ].
  cbn [filter]. unfold T.in_range at 1.
  destruct (Z.leb_spec from_time (T.created_at r));
    destruct (Z.leb_spec (T.created_at r) to_time); cbn [andb];
    try exact IH; lia.
Qed.

Lemma str_of_key_is_true (k : Z) :
  Py.truthy (VStr (NilZero.string_of_int (Z.to_int k))) = true.
Proof.
  unfold Py.truthy.
  destruct (Z.to_int k) as [d | d]; [ destruct d | ]; reflexivity.
Qed.

(** X17.  The statement and [check_transaction] agree.  An entry of a
    statement always names its transaction by a true value (the external
    id or, without one, the text of the key) and names the key under the
    account field; and for a transaction that has an external id, under
    which the repository finds it, the state, reason and three times of
    its entry are those [check_transaction] answers for that id. *)
Theorem statement_entry_agrees_with_check_transaction
  (env : Env) (t : T.t) :
  let entry := statement_entry env t in
  Py.truthy (item_transaction entry) = true /\
  fst (item_account entry) = PAYME_ACCOUNT_FIELD env /\
  (forall params st,
      Py.truthy (T.ext_id t) = true ->
      Py.getitem params "id" = Ok (T.ext_id t) ->
      T.get_by_ext_id (T.ext_id t) (rows st) = Ok t ->
      check_transaction env params st
      = (Ok (CheckTransaction (item_transaction entry) (item_state entry)
               (item_reason entry) (item_create_time entry)
               (item_perform_time entry) (item_cancel_time entry)), st)).
Proof.
  cbv zeta. split; [ | split ].
  - unfold statement_entry. cbn [item_transaction].
    destruct (Py.truthy (T.ext_id t)) eqn:E;
      [ exact E | apply str_of_key_is_true ].
  - reflexivity.
  - intros params st Htrue Hid Hget. unfold_handler.
    run_with Hid. rewrite Hget. cbn beta iota.
    unfold statement_entry. cbn. rewrite Htrue. reflexivity.
Qed.

(** ** Linking, then looking up *)

Lemma value_eqb_refl : forall v, Py.value_eqb v v = true.
Proof.
  fix IH 1. intros v. destruct v as [ | b | z | s | items | items ]; cbn.
  - reflexivity.
  - destruct b; reflexivity.
  - apply Z.eqb_refl.
  - apply String.eqb_refl.
  - induction items as [ | x rest IHrest ]; [ reflexivity | ].
    rewrite IH. exact IHrest.
  - induction items as [ | [k x] rest IHrest ]; [ reflexivity | ].
    rewrite String.eqb_refl, IH. exact IHrest.
Qed.

Lemma save_ext_id_cons (t r : T.t) (l : T.objects) :
  T.save_ext_id t (r :: l)
  = (if T.id r =? T.id t then T.with_ext_id r (T.ext_id t) else r)
      :: T.save_ext_id t l.
Proof. reflexivity. Qed.

Lemma no_match_elsewhere (v : value) (tran : T.t) (l : T.objects) :
  ~ In (T.id tran) (map T.id l) ->
  (forall r, In r l -> Py.value_eqb (T.ext_id r) v = false) ->
  filter (fun r => Py.value_eqb (T.ext_id r) v)
         (T.save_ext_id (T.with_ext_id tran v) l) = [].
Proof.
  induction l as [ | r rest IH ]; intros Hnotin Hno; [ reflexivity | ].
  rewrite save_ext_id_cons.
  change (T.id (T.with_ext_id tran v)) with (T.id tran).
  destruct (Z.eqb_spec (T.id r) (T.id tran)) as [E | _].
  - exfalso. apply Hnotin. left. exact E.
  - cbn [filter]. rewrite (Hno r (or_introl eq_refl)). apply IH.
    + intros Hin. apply Hnotin. right. exact Hin.
    + intros r' Hr'. apply Hno. right. exact Hr'.
Qed.

Lemma get_by_ext_id_after_link (v : value) (tran : T.t) (rows : T.objects) :
  pk_unique rows ->
  In tran rows ->
  (forall r, In r rows -> Py.value_eqb (T.ext_id r) v = false) ->
  T.get_by_ext_id v (T.save_ext_id (T.with_ext_id tran v) rows)
  = Ok (T.with_ext_id tran v).
Proof.
  unfold T.get_by_ext_id, T.get, pk_unique.
  induction rows as [ | r rest IH ]; intros Hpk Hin Hno; [ destruct Hin | ].
  cbn [map] in Hpk. inversion Hpk as [ | ? ? Hnotin Hpk' ]; subst.
  rewrite save_ext_id_cons.
  change (T.id (T.with_ext_id tran v)) with (T.id tran).
  change (T.ext_id (T.with_ext_id tran v)) with v.
  destruct Hin as [-> | Hin].
  - rewrite Z.eqb_refl. cbn [filter].
    change (T.ext_id (T.with_ext_id tran v)) with v.
    rewrite value_eqb_refl.
    rewrite no_match_elsewhere;
      [ reflexivity | exact Hnotin
      | intros r' Hr'; apply Hno; right; exact Hr' ].
  - destruct (Z.eqb_spec (T.id r) (T.id tran)) as [E | _].
    + exfalso. apply Hnotin. rewrite E. apply in_map. exact Hin.
    + cbn [filter]. rewrite (Hno r (or_introl eq_refl)).
      apply IH; [ exact Hpk' | exact Hin | ].
      intros r' Hr'. apply Hno. right. exact Hr'.
Qed.

(** X18.  Linking, then looking up.  When [create_transaction] answers for a
    transaction without an external id, and no stored transaction has the
    id of the call yet, the id it wrote finds that transaction again:
    [check_transaction] with the same id answers with the id, the state
    and the times of the transaction that was linked. *)
Theorem create_then_check
  (env : Env) (params lookup : value) (st st1 : State) (r1 : response)
  (payme_tr_id : value) (tran : T.t) :
  pk_unique (rows st) ->
  create_transaction env params st = (Ok r1, st1) ->
  Py.getitem params "id" = Ok payme_tr_id ->
  resolves env params (rows st) tran ->
  Py.truthy (T.ext_id tran) = false ->
  (forall r, In r (rows st) -> Py.value_eqb (T.ext_id r) payme_tr_id = false) ->
  Py.getitem lookup "id" = Ok payme_tr_id ->
  check_transaction env lookup st1
  = (Ok (checked_response env (T.with_ext_id tran payme_tr_id)), st1) /\
  r1 = CreateTransaction payme_tr_id (T.payme_state tran)
         (time_to_payme env (Some (T.created_at tran))).
Proof.
  intros Hpk Hcreate Hid Hres Hfalse Hno Hlookup.
  destruct (create_transaction_ok_inv env params st st1 r1 Hcreate)
    as (id' & tran' & amount & Hid' & Hres' & _ & _ & -> & ->).
  assert (id' = payme_tr_id) as -> by congruence.
  assert (tran' = tran) as ->.
  { destruct Hres as (a & t & Ha & Hg & _ & Hr).
    destruct Hres' as (a0 & t0 & Ha0 & Hg0 & _ & Hr0). congruence. }
  assert (Hin : In tran (rows st)).
  { destruct Hres as (a & t & _ & _ & _ & Hr). unfold T.get_by_id in Hr.
    destruct (to_pk env t); [ | discriminate ].
    apply (get_ok_in _ _ _ Hr). }
  unfold linked, created_response. rewrite Hfalse. split; [ | reflexivity ].
  unfold_handler. run_with Hlookup.
  unfold after_create, linked. rewrite Hfalse. cbn [rows].
  rewrite (get_by_ext_id_after_link payme_tr_id tran (rows st) Hpk Hin Hno).
  reflexivity.
Qed.

(** ** These statements at work on the example configuration *)

Definition cancelled_order : T.t :=
  {| T.id := 8; T.ext_id := VStr "ext8"; T.total_price := Fin 5000 (-2);
     T.status := T.CANCELLED_AFTER_CREATE; T.created_at := 1700000100000000;
     T.confirmed_at := None; T.canceled_at := Some 1700000150000000;
     T.data := [("cancel_reason", VInt 3)] |}.

Definition st_cancelled : State :=
  {| rows := [Example.order5; cancelled_order]; hooks := [] |}.

(** The example configuration with a merchant key that holds a colon. *)
Definition colon_env : Env :=
  {| PAYME_KEY := Py.codes "a:b";
     PAYME_ACCOUNT_FIELD := "order_id";
     to_pk := Example.int_pk;
     Decimal_of_str := fun _ => None;
     Decimal_of_list := fun _ => None;
     time_to_payme := Util.time_to_payme;
     time_to_service := Util.time_to_service |}.

Definition check_request : Request :=
  {| HTTP_AUTHORIZATION := Some Example.good_header;
     request_data := VDict [("method", VStr "CheckTransaction");
                            ("params", VDict [("id", VStr "ext6")])] |}.

Lemma reading_witness :
  snd (post Example.env 0 check_request Example.st0) = Example.st0.
Proof.
  destruct (reading_handlers_change_nothing Example.env 0
              (VDict [("id", VStr "ext6")]) Example.st0) as (_ & _ & _ & Hpost).
  apply (Hpost check_request
           [("method", VStr "CheckTransaction");
            ("params", VDict [("id", VStr "ext6")])]
           "CheckTransaction" eq_refl eq_refl eq_refl eq_refl).
  cbn [In]. right. left. reflexivity.
Defined.

Lemma keys_witness :
  pk_unique
    (rows (fold_left
             (fun s call => snd (post Example.env (fst call) (snd call) s))
             [(1700000400000000,
               {| HTTP_AUTHORIZATION := Some Example.good_header;
                  request_data :=
                    VDict [("method", VStr "CreateTransaction");
                           ("params", Example.create_params)] |});
              (1700000500000000,
               {| HTTP_AUTHORIZATION := Some Example.good_header;
                  request_data :=
                    VDict [("method", VStr "PerformTransaction");
                           ("params", VDict [("id", VStr "ext1")])] |})]
             Example.st0)).
Proof.
  destruct (post_keeps_the_keys Example.env 0 check_request Example.st0)
    as (_ & _ & Hall).
  apply Hall. exact pk_unique_st0.
Defined.

Lemma unknown_external_id_witness :
  let params := VDict [("id", VStr "nobody"); ("reason", VInt 1)] in
  perform_transaction Example.env 0 params Example.st0
  = (Raise account_does_not_exist, Example.st0) /\
  check_transaction Example.env params Example.st0
  = (Raise account_does_not_exist, Example.st0) /\
  cancel_transaction Example.env 0 params Example.st0
  = (Raise account_does_not_exist, Example.st0).
Proof.
  intros params.
  assert (Hno : forall r, In r (rows Example.st0) ->
                          Py.value_eqb (T.ext_id r) (VStr "nobody") = false).
  { intros r [<- | [<- | [<- | []]]]; reflexivity. }
  destruct (unknown_external_id Example.env 0 params Example.st0 (VStr "nobody")
              eq_refl Hno) as (Hp & Hc & Hx).
  split; [ exact Hp | split; [ exact Hc | exact (Hx (VInt 1) eq_refl) ] ].
Defined.

Lemma missing_key_witness :
  create_transaction Example.env (VDict []) Example.st0
  = (Raise invalid_parameters, Example.st0) /\
  cancel_transaction Example.env 0 (VDict [("id", VStr "ext6")]) Example.st0
  = (Raise invalid_parameters, Example.st0) /\
  get_statement Example.env (VDict [("from", VInt 0)]) Example.st0
  = (Raise invalid_parameters, Example.st0).
Proof.
  split; [ | split ].
  - destruct (missing_key_is_invalid_parameters Example.env 0 [] Example.st0)
      as (Hid & _).
    destruct (Hid eq_refl) as (Hcreate & _). exact Hcreate.
  - destruct (missing_key_is_invalid_parameters Example.env 0
                [("id", VStr "ext6")] Example.st0) as (_ & Hreason & _).
    exact (Hreason eq_refl).
  - destruct (missing_key_is_invalid_parameters Example.env 0
                [("from", VInt 0)] Example.st0) as (_ & _ & _ & Hto).
    exact (Hto (VInt 0) 0 eq_refl eq_refl eq_refl).
Defined.

Lemma not_a_mapping_witness :
  create_transaction Example.env (VList []) Example.st0
  = (Raise (unexpected TypeError), Example.st0).
Proof.
  destruct (params_not_a_mapping Example.env 0 (VList []) Example.st0 I)
    as (_ & Hcreate & _).
  exact Hcreate.
Defined.

Lemma refused_perform_witness :
  perform_transaction Example.env 1700000400000000
    (VDict [("id", VStr "ext8")]) st_cancelled
  = (Raise (Payme (InternalServiceError
                     [StrInternal [Lit "Cannot perform transaction"]])),
     st_cancelled).
Proof.
  exact (refused_perform Example.env 1700000400000000
           (VDict [("id", VStr "ext8")]) st_cancelled (VStr "ext8")
           cancelled_order cancelled_order (rows st_cancelled)
           eq_refl eq_refl eq_refl eq_refl).
Defined.

Lemma key_with_colon_witness :
  check_authorize colon_env
    {| HTTP_AUTHORIZATION := Some "Basic UGF5Y29tOmE6Yg==";
       request_data := VNone |}
  <> Ok tt.
Proof.
  apply key_with_colon_never_passes. cbn. right. left. reflexivity.
Defined.

Lemma scheme_witness :
  check_authorize Example.env
    {| HTTP_AUTHORIZATION := Some ("Bearer" ++ " " ++ "UGF5Y29tOnNlY3JldA==");
       request_data := VNone |}
  = check_authorize Example.env
      {| HTTP_AUTHORIZATION := Some "UGF5Y29tOnNlY3JldA==";
         request_data := VNone |}.
Proof.
  apply scheme_is_not_checked; [ discriminate | reflexivity ].
Defined.

Lemma type_error_witness :
  post Example.env 0
    {| HTTP_AUTHORIZATION := Some Example.good_header;
       request_data := VList [] |} Example.st0
  = (Raise (Raw TypeError), Example.st0).
Proof.
  destruct (post_lets_type_errors_out Example.env 0
              {| HTTP_AUTHORIZATION := Some Example.good_header;
                 request_data := VList [] |} Example.st0 eq_refl)
    as (Hbody & _).
  exact (Hbody I).
Defined.

Lemma resolves_order5 :
  resolves Example.env Example.create_params (rows Example.st0) Example.order5.
Proof.
  exists (VDict [("order_id", VStr "5")]), (VStr "5").
  repeat split; reflexivity.
Defined.

Lemma hundredths_witness :
  check_perform_transaction Example.env Example.create_params Example.st0
  = (Ok allowed, Example.st0).
Proof.
  exact (int_amount_is_hundredths Example.env Example.create_params Example.st0
           Example.order5 10000 (-2) 10000 resolves_order5 eq_refl eq_refl
           ltac:(discriminate) eq_refl).
Defined.

Lemma null_amount_witness :
  let params := VDict [("id", VStr "ext1"); ("amount", VNone);
                       ("account", VDict [("order_id", VStr "5")])] in
  check_perform_transaction Example.env params Example.st0
  = (Raise (unexpected TypeError), Example.st0) /\
  create_transaction Example.env params Example.st0
  = (Raise (unexpected TypeError), Example.st0).
Proof.
  intros params.
  assert (Hres : resolves Example.env params (rows Example.st0) Example.order5).
  { exists (VDict [("order_id", VStr "5")]), (VStr "5").
    repeat split; reflexivity. }
  destruct (null_amount_is_an_internal_error Example.env params Example.st0
              Example.order5 VNone Hres eq_refl I) as [Hcheck Hcreate].
  split; [ exact Hcheck | exact (Hcreate (VStr "ext1") eq_refl) ].
Defined.

Lemma reversed_range_witness :
  get_statement Example.env
    (VDict [("from", VInt 1700000200000); ("to", VInt 1700000000000)])
    Example.st0
  = (Ok (GetStatement []), Example.st0).
Proof.
  exact (reversed_range_gives_empty_statement Example.env
           (VDict [("from", VInt 1700000200000); ("to", VInt 1700000000000)])
           Example.st0 (VInt 1700000200000) (VInt 1700000000000)
           1700000200000000 1700000000000000
           eq_refl eq_refl eq_refl eq_refl eq_refl).
Defined.

Lemma agreement_witness :
  check_transaction Example.env (VDict [("id", VStr "ext6")]) Example.st0
  = (Ok (CheckTransaction (VStr "ext6") 2 VNone
           1700000360000 1700000370000 0), Example.st0).
Proof.
  destruct (statement_entry_agrees_with_check_transaction Example.env
              Example.order6) as (_ & _ & Hagree).
  exact (Hagree (VDict [("id", VStr "ext6")]) Example.st0
           eq_refl eq_refl eq_refl).
Defined.

Lemma create_then_check_witness :
  let st1 := snd (create_transaction Example.env Example.create_params
                    Example.st0) in
  check_transaction Example.env (VDict [("id", VStr "ext1")]) st1
  = (Ok (CheckTransaction (VStr "ext1") 1 VNone 1700000000000 0 0), st1).
Proof.
  intros st1.
  assert (Hno : forall r, In r (rows Example.st0) ->
                          Py.value_eqb (T.ext_id r) (VStr "ext1") = false).
  { intros r [<- | [<- | [<- | []]]]; reflexivity. }
  destruct (create_then_check Example.env Example.create_params
              (VDict [("id", VStr "ext1")]) Example.st0 st1
              (CreateTransaction (VStr "ext1") 1 1700000000000)
              (VStr "ext1") Example.order5
              pk_unique_st0 eq_refl eq_refl resolves_order5 eq_refl Hno eq_refl)
    as (Hcheck & _).
  exact Hcheck.
Defined.
